(** * Mass-File-Size-Finder: a shallow embedding of [folderSizer/app.py]

    The filesystem is a static tree.  A directory whose listing is denied
    (mode 000) is [Dir false _]: [os.listdir] / [os.scandir] on it raise
    [PermissionError], and [stat] of a path below it raises the same.
    Python statements that print are modelled by appending an [event] to a
    log; exceptions are the [inr] branch of the monad [M]. *)

From Stdlib Require Import List String Ascii ZArith QArith Lia Bool.
Import ListNotations.
Open Scope Z_scope.

(* ------------------------------------------------------------------ *)
(** ** Python values, exceptions, printed diagnostics *)

Definition path := list string.

Inductive exn :=
| PermissionError
| FileNotFoundError
| NotADirectoryError
| UnboundLocalError.

(** The caught tuple [(PermissionError, FileNotFoundError)]. *)
Definition access_error (e : exn) : bool :=
  match e with
  | PermissionError | FileNotFoundError => true
  | _ => false
  end.

(** One event per [print] call of the source. *)
Inductive event :=
| SkipInaccessibleFolder (p : path)   (* "Skipping inaccessible folder: {p}" *)
| SkipInaccessibleFile (p : path)     (* "Skipping inaccessible file: {p}" *)
| SplittingAnalysis (p : path)        (* "Splitting analysis for: {p}" *)
| AnalyzingFolderSizes (p : path)     (* "\nAnalyzing folder sizes in {p}...\n" *)
| FolderSummary (p : path) (total files : Z)
                                      (* "{name} - Total: .. | Files: .." *)
| DirectoryDoesNotExist.              (* "Directory does not exist." *)

Definition log := list event.

(** State (the log printed so far) and exceptions. *)
Definition M (A : Type) : Type := log -> (A + exn) * log.

Definition ret {A} (a : A) : M A := fun lg => (inl a, lg).
Definition raise {A} (e : exn) : M A := fun lg => (inr e, lg).
Definition bind {A B} (m : M A) (f : A -> M B) : M B :=
  fun lg => match m lg with
            | (inl a, lg') => f a lg'
            | (inr e, lg') => (inr e, lg')
            end.
Definition print (ev : event) : M unit := fun lg => (inl tt, lg ++ [ev]).

Notation "x <- m ;; k" := (bind m (fun x => k))
  (at level 61, m at next level, right associativity).
Notation "m ;; k" := (bind m (fun _ : unit => k))
  (at level 61, right associativity).

(** [try: m except (PermissionError, FileNotFoundError): h]. *)
Definition try_access {A} (m : M A) (h : M A) : M A :=
  fun lg => match m lg with
            | (inr e, lg') => if access_error e then h lg' else (inr e, lg')
            | r => r
            end.

(** The outcome of a [for] loop: the locals it updated, the value the
    loop variable is left bound to ([None]: never bound) and the exception
    that interrupted it, if any.  The source's [except] clauses read the
    first two. *)
Record loop_out (X S : Type) := LoopOut {
  locals : S;
  loop_var : option X;
  interrupted : option exn
}.
Arguments LoopOut {X S}.
Arguments locals {X S}.
Arguments loop_var {X S}.
Arguments interrupted {X S}.

(** [for x in xs: body] from locals [s] and a loop variable bound to [v]. *)
Fixpoint py_for_from {X S} (xs : list X) (body : S -> X -> M S) (s : S)
    (v : option X) : M (loop_out X S) :=
  match xs with
  | [] => ret (LoopOut s v None)
  | x :: xs' =>
      fun lg => match body s x lg with
                | (inl s', lg') => py_for_from xs' body s' (Some x) lg'
                | (inr e, lg') => (inl (LoopOut s (Some x) (Some e)), lg')
                end
  end.

(** [for x in src: body], where producing the iterable [src] may raise
    before anything is bound. *)
Definition py_for {X S} (src : M (list X)) (body : S -> X -> M S) (s : S)
  : M (loop_out X S) :=
  fun lg => match src lg with
            | (inl xs, lg') => py_for_from xs body s None lg'
            | (inr e, lg') => (inl (LoopOut s None (Some e)), lg')
            end.

(** [sum(...)] over a generator: a fold that propagates exceptions. *)
Fixpoint py_sum {X} (xs : list X) (f : X -> M Z) : M Z :=
  match xs with
  | [] => ret 0
  | x :: xs' => a <- f x ;; b <- py_sum xs' f ;; ret (a + b)
  end.

(* ------------------------------------------------------------------ *)
(** ** Decimal rendering used by the f-strings of [format_size] *)

Fixpoint string_of_uint (d : Decimal.uint) : string :=
  match d with
  | Decimal.Nil => EmptyString
  | Decimal.D0 d => String "0" (string_of_uint d)
  | Decimal.D1 d => String "1" (string_of_uint d)
  | Decimal.D2 d => String "2" (string_of_uint d)
  | Decimal.D3 d => String "3" (string_of_uint d)
  | Decimal.D4 d => String "4" (string_of_uint d)
  | Decimal.D5 d => String "5" (string_of_uint d)
  | Decimal.D6 d => String "6" (string_of_uint d)
  | Decimal.D7 d => String "7" (string_of_uint d)
  | Decimal.D8 d => String "8" (string_of_uint d)
  | Decimal.D9 d => String "9" (string_of_uint d)
  end.

(** [str(n)] for a Python int. *)
Definition py_str (n : Z) : string :=
  match Z.to_int n with
  | Decimal.Pos d => string_of_uint d
  | Decimal.Neg d => String "-" (string_of_uint d)
  end.

(** [format_size] (app.py, lines 78-86); [//] is floor division, [Z.div]. *)
Definition format_size (size : Z) : string :=
  if size <? 1024 then py_str size ++ " B"
  else if size <? 1048576 then py_str (size / 1024) ++ " KB"
  else if size <? 1073741824 then py_str (size / 1048576) ++ " MB"
  else py_str (size / 1073741824) ++ " GB".


(** After a loop inside [try:]: an access error runs the handler, any
    other exception propagates. *)
Definition except_access {X S} (r : loop_out X S) (h : loop_out X S -> M S)
  : M S :=
  match interrupted r with
  | None => ret (locals r)
  | Some e => if access_error e then h r else raise e
  end.

(** [Future] of a task run by a [ThreadPoolExecutor]: [submit] runs it and
    keeps its result or its exception; [result()] re-raises. *)
Definition submit {A} (m : M A) : M (A + exn) :=
  fun lg => let (r, lg') := m lg in (inl r, lg').
Definition future_result {A} (f : A + exn) : M A :=
  match f with inl a => ret a | inr e => raise e end.

Fixpoint map_m {X A} (f : X -> M A) (xs : list X) : M (list A) :=
  match xs with
  | [] => ret []
  | x :: xs' => a <- f x ;; r <- map_m f xs' ;; ret (a :: r)
  end.

(* ------------------------------------------------------------------ *)
(** ** The filesystem and the [pathlib] operations the source uses *)

(** A file with its size, or a directory with its entries.  A directory is
    either fully accessible ([listable = true]: it can be listed and its
    entries can be stat-ed) or of mode 000 ([listable = false]: neither).
    Directories that can be listed but not searched (mode 0444), or
    searched but not listed (mode 0111), are outside this model: there the
    source's [is_file], [is_dir] and [stat] of an entry raise
    [PermissionError], or a path can be crossed without being listed. *)
#[warnings="-register-all"]
Inductive node :=
| File (size : Z)
| Dir (listable : bool) (children : list (string * node)).

Definition is_file (n : node) : bool :=
  match n with File _ => true | Dir _ _ => false end.
Definition is_dir (n : node) : bool :=
  match n with File _ => false | Dir _ _ => true end.

(** [item.stat().st_size]; the source reads it only after [is_file()]. *)
Definition st_size (n : node) : Z :=
  match n with File s => s | Dir _ _ => 0 end.

(** A [Path] entry: the path and the node it names. *)
Definition entry := (path * node)%type.

Definition children_of (p : path) (ch : list (string * node)) : list entry :=
  map (fun c => (p ++ [fst c], snd c)) ch.

(** [path.iterdir()]: [os.listdir], which fails before yielding. *)
Definition iterdir (p : path) (n : node) : M (list entry) :=
  match n with
  | Dir true ch => ret (children_of p ch)
  | Dir false _ => raise PermissionError
  | File _ => raise NotADirectoryError
  end.

(** [folder.rglob('*')] of CPython's [pathlib]: the children of every
    directory reached in pre-order ([_RecursiveWildcardSelector]); a
    directory whose [scandir] raises [PermissionError] contributes nothing
    and the error is swallowed inside [rglob] ([except PermissionError:
    return] in both selectors); a non-directory yields nothing. *)
Fixpoint rglob (p : path) (n : node) : list entry :=
  match n with
  | Dir true ch =>
      children_of p ch ++
      (fix below (l : list (string * node)) : list entry :=
         match l with
         | [] => []
         | (nm, c) :: t => rglob (p ++ [nm]) c ++ below t
         end) ch
  | _ => []
  end.

(** Existence check for a target path from the filesystem root: [stat]
    follows the components; a missing component or a file used as a
    directory is ENOENT / ENOTDIR, which [exists()] and [is_dir()] turn into
    [False]; crossing a directory without permission is EACCES, which they
    re-raise as [PermissionError]. *)
Fixpoint resolve (n : node) (p : path) : option node + exn :=
  match p with
  | [] => inl (Some n)
  | nm :: p' =>
      match n with
      | File _ => inl None
      | Dir false _ => inr PermissionError
      | Dir true ch =>
          match find (fun c => String.eqb (fst c) nm) ch with
          | None => inl None
          | Some c => resolve (snd c) p'
          end
      end
  end.

Definition path_eqb (p q : path) : bool :=
  if list_eq_dec string_dec p q then true else false.

(** [d[k] = v] on a Python dict, kept as an association list. *)
Fixpoint dict_set (d : list (path * Z)) (k : path) (v : Z) : list (path * Z) :=
  match d with
  | [] => [(k, v)]
  | (k', v') :: t => if path_eqb k k' then (k, v) :: t else (k', v') :: dict_set t k v
  end.

Definition dict_values (d : list (path * Z)) : list Z := map snd d.

Definition py_sum_list (l : list Z) : Z := fold_right Z.add 0 l.

(* ------------------------------------------------------------------ *)
(** ** The analysis functions of [app.py] *)

(** [elapsed_time > 3]: the wall-clock time measured by
    [get_total_folder_size] is an input of the model, in seconds. *)
Definition over_threshold (elapsed : Q) : bool := negb (Qle_bool elapsed 3).

(** [analyze_subfolder] (lines 31-39); [max_depth] is unused there. *)
Definition analyze_subfolder (folder : path) (n : node) : M Z :=
  r <- py_for (ret (rglob folder n))
         (fun total item => if is_file (snd item)
                            then ret (total + st_size (snd item))
                            else ret total) 0 ;;
  except_access r (fun r => print (SkipInaccessibleFolder folder) ;;
                            ret (locals r)).

(** [split_analysis] (lines 42-51): one task per directory child, run to
    completion; [iterdir] is outside any [try]. *)
Definition split_analysis (p : path) (n : node) : M Z :=
  items <- iterdir p n ;;
  futures <- map_m (fun sub => submit (analyze_subfolder (fst sub) (snd sub)))
                   (filter (fun sub => is_dir (snd sub)) items) ;;
  py_sum futures future_result.

(** [get_total_folder_size] (lines 10-28); [elapsed] is the time the
    [try] block took. *)
Definition get_total_folder_size (p : path) (n : node) (elapsed : Q) : M Z :=
  r <- py_for (iterdir p n)
         (fun total item =>
            if is_file (snd item) then ret (total + st_size (snd item))
            else if is_dir (snd item) then
              a <- analyze_subfolder (fst item) (snd item) ;; ret (total + a)
            else ret total) 0 ;;
  total_size <- except_access r (fun r => print (SkipInaccessibleFolder p) ;;
                                          ret (locals r)) ;;
  if over_threshold elapsed then
    print (SplittingAnalysis p) ;; split_analysis p n
  else ret total_size.

(** [analyze_folder] (lines 54-64): returns [(path, files_size,
    total_size)].  One [try] covers both assignments; the handler sees
    [files_size] as far as it was assigned. *)
Definition analyze_folder (p : path) (n : node) (elapsed : Q)
  : M (path * Z * Z) :=
  try_access
    (items <- iterdir p n ;;
     files_size <- py_sum (filter (fun item => is_file (snd item)) items)
                          (fun item => ret (st_size (snd item))) ;;
     try_access
       (subfolder_size <- get_total_folder_size p n elapsed ;;
        ret (p, files_size, subfolder_size))
       (print (SkipInaccessibleFolder p) ;; ret (p, files_size, 0)))
    (print (SkipInaccessibleFolder p) ;; ret (p, 0, 0)).

(** [analyze_files_in_directory] (lines 67-75).  The handler's f-string
    reads the loop variable [file]: unbound, it raises
    [UnboundLocalError]. *)
Definition analyze_files_in_directory (p : path) (n : node)
  : M (list (path * Z)) :=
  r <- py_for (iterdir p n)
         (fun files_info file =>
            if is_file (snd file)
            then ret (dict_set files_info (fst file) (st_size (snd file)))
            else ret files_info) [] ;;
  except_access r (fun r => match loop_var r with
                            | None => raise UnboundLocalError
                            | Some file => print (SkipInaccessibleFile (fst file)) ;;
                                           ret (locals r)
                            end).

(** The three dicts [perform_analysis] hands to [plot_folder_sizes]. *)
Record snapshot := Snapshot {
  folder_sizes : list (path * Z);
  files_sizes : list (path * Z);
  files_info : list (path * Z)
}.

Definition empty_snapshot : snapshot := Snapshot [] [] [].

(** [perform_analysis] (lines 100-120) up to the call of
    [plot_folder_sizes]: the snapshot it is called with.  The worker tasks
    run in listing order here; [as_completed] order only affects the
    insertion order of the dicts and the order of the printed lines.
    [elapsed q] is the time measured by [get_total_folder_size(q)]. *)
Definition perform_analysis (directory : path) (n : node) (elapsed : path -> Q)
  : M snapshot :=
  print (AnalyzingFolderSizes directory) ;;
  items <- iterdir directory n ;;
  futures <- map_m (fun sub => submit (analyze_folder (fst sub) (snd sub)
                                                      (elapsed (fst sub))))
                   (filter (fun sub => is_dir (snd sub)) items) ;;
  info <- analyze_files_in_directory directory n ;;
  r <- py_for (ret futures)
         (fun s future =>
            res <- future_result future ;;
            let '(subfolder, file_size, total_size) := res in
            let s' := Snapshot (dict_set (folder_sizes s) subfolder total_size)
                               (dict_set (files_sizes s) subfolder file_size)
                               (files_info s) in
            print (FolderSummary subfolder total_size file_size) ;;
            ret s')
         (Snapshot [] [] info) ;;
  match interrupted r with
  | None => ret (locals r)
  | Some e => raise e
  end.

(* ------------------------------------------------------------------ *)
(** ** The session: [analyze_and_plot] and the back button *)

(** The navigation state: the shared list [history] (top = last element)
    and the directory whose chart is on screen. *)
Record session := Session {
  history : list path;
  displayed : path
}.

(** [go_back] (lines 180-184): the new [history] and, when it pops, the
    directory passed to [callback] (the next [perform_analysis]). *)
Definition go_back (h : list path) : list path * option path :=
  if 1 <? Z.of_nat (List.length h) then
    let h' := removelast h in (h', Some (last h' []))
  else (h, None).

(** The handlers [plot_folder_sizes] registers: the ".." button runs
    [go_back]; mouse motion only redraws the tooltip.  No handler pushes
    onto [history]. *)
Inductive ui_event := BackClicked | MouseMoved.

Definition session_step (s : session) (ev : ui_event) : session :=
  match ev with
  | MouseMoved => s
  | BackClicked =>
      let (h', target) := go_back (history s) in
      Session h' (match target with Some d => d | None => displayed s end)
  end.

(** [analyze_and_plot] (lines 89-98 and 122) from the filesystem root
    [fs]: [None] is the early [return]; otherwise the first session state
    ([history = [path]]) and the snapshot handed to [plot_folder_sizes]. *)
Definition analyze_and_plot (fs : node) (target : path) (elapsed : path -> Q)
  : M (option (session * snapshot)) :=
  match resolve fs target with
  | inr e => raise e
  | inl (Some n) =>
      if is_dir n then
        snap <- perform_analysis target n elapsed ;;
        ret (Some (Session [target] target, snap))
      else print DirectoryDoesNotExist ;; ret None
  | inl None => print DirectoryDoesNotExist ;; ret None
  end.

Inductive reachable (root : path) : session -> Prop :=
| reach_init : reachable root (Session [root] root)
| reach_step : forall s ev, reachable root s -> reachable root (session_step s ev).

(* ------------------------------------------------------------------ *)
(** ** The reference walker and sums *)

(** Total bytes of the files under [n], listing permissions ignored. *)
Fixpoint du (n : node) : Z :=
  match n with
  | File s => s
  | Dir _ ch =>
      (fix du_list (l : list (string * node)) : Z :=
         match l with [] => 0 | (_, c) :: t => du c + du_list t end) ch
  end.

Fixpoint all_listable (n : node) : bool :=
  match n with
  | File _ => true
  | Dir b ch =>
      b && (fix go (l : list (string * node)) : bool :=
              match l with [] => true | (_, c) :: t => all_listable c && go t end) ch
  end.

(** Python's [d.get(k)] on the association-list dicts. *)
Fixpoint dict_get (d : list (path * Z)) (k : path) : option Z :=
  match d with
  | [] => None
  | (k', v) :: t => if path_eqb k k' then Some v else dict_get t k
  end.

(* ------------------------------------------------------------------ *)
(** ** Concrete trees *)

(** /R with /R/A holding a 2000-byte file, /R/B holding two 10-byte files
    and the 500-byte file /R/f. *)
Definition R : path := ["R"%string].
Definition R_A : path := R ++ ["A"%string].
Definition R_B : path := R ++ ["B"%string].
Definition R_f : path := R ++ ["f"%string].
Definition tree_R : node :=
  Dir true [("A"%string, Dir true [("a.bin"%string, File 2000)]);
            ("B"%string, Dir true [("b1"%string, File 10); ("b2"%string, File 10)]);
            ("f"%string, File 500)].

(** /R/A holding the 3-byte file g and the directory D (mode 000) with a
    7-byte file. *)
Definition R_A_D : path := R_A ++ ["D"%string].
Definition tree_deep_denied : node :=
  Dir true [("A"%string, Dir true [("D"%string, Dir false [("x"%string, File 7)]);
                                   ("g"%string, File 3)])].

(** Every measured walk under the threshold, and every one over it. *)
Definition no_split (_ : path) : Q := 0.
Definition always_split (_ : path) : Q := 5.

(* ------------------------------------------------------------------ *)
(** ** Claims *)

(** C8: [format_size] puts 1023 in B, 1024 in KB, 1048575 in KB and
    1048576 in MB: each power of 1024 is the first value of the higher
    unit. *)
Theorem format_size_boundaries :
  format_size 1023 = "1023 B"%string /\
  format_size 1024 = "1 KB"%string /\
  format_size 1048575 = "1023 KB"%string /\
  format_size 1048576 = "1 MB"%string.
Proof. repeat split; vm_compute; reflexivity. Qed.

(** C10: when listing the directory fails with [PermissionError] before
    any entry is bound, [analyze_files_in_directory] raises
    [UnboundLocalError] from its own handler, prints nothing, and returns
    no Skip outcome. *)
Theorem analyze_files_unbound_loop_var :
  forall (p : path) (ch : list (string * node)) (lg : log),
    analyze_files_in_directory p (Dir false ch) lg = (inr UnboundLocalError, lg).
Proof. intros; reflexivity. Qed.

(** C2 (split changes the total): for /R with elapsed times over and under
    the threshold, /R/A gets total 0 and 2000 respectively, since
    [split_analysis] sums only the directory children. *)
Theorem split_changes_total :
  (exists s lg, perform_analysis R tree_R always_split [] = (inl s, lg) /\
     dict_get (folder_sizes s) R_A = Some 0) /\
  (exists s lg, perform_analysis R tree_R no_split [] = (inl s, lg) /\
     dict_get (folder_sizes s) R_A = Some 2000).
Proof. split; do 2 eexists; split; vm_compute; reflexivity. Qed.

(** C3 (split breaks the order of the pair): on /R with the walk of /R/A
    over the threshold, /R/A's total (0) is below its immediate files
    (2000). *)
Theorem split_total_below_files :
  exists s lg, perform_analysis R tree_R always_split [] = (inl s, lg) /\
    dict_get (files_sizes s) R_A = Some 2000 /\
    dict_get (folder_sizes s) R_A = Some 0.
Proof. do 2 eexists; split; [vm_compute; reflexivity | split; reflexivity]. Qed.

(** C4 (no diagnostic for a denied directory below a subfolder): the pass
    over /R where /R/A/D is mode 000 prints no skip line for /R/A/D; its
    [PermissionError] is swallowed by [rglob]. *)
Theorem deep_denied_dir_not_reported :
  perform_analysis R tree_deep_denied no_split [] =
    (inl (Snapshot [(R_A, 3)] [(R_A, 3)] []),
     [AnalyzingFolderSizes R; FolderSummary R_A 3 3]) /\
  ~ In (SkipInaccessibleFolder R_A_D)
       (snd (perform_analysis R tree_deep_denied no_split [])).
Proof.
  split.
  - vm_compute; reflexivity.
  - vm_compute. intros [H | [H | H]]; [discriminate | discriminate | exact H].
Qed.

(** The back button on a one-element history changes nothing. *)
Lemma session_step_single (x : path) (d : path) (ev : ui_event) :
  session_step (Session [x] d) ev = Session [x] d.
Proof. destruct ev; reflexivity. Qed.

(** C9: every state reachable from [analyze_and_plot]'s initial state has
    history exactly [[root]] and shows [root]; no event changes it. *)
Theorem history_always_singleton :
  forall (root : path) (s : session), reachable root s ->
    s = Session [root] root /\ (forall ev, session_step s ev = s).
Proof.
  intros root s Hr; induction Hr as [| s ev Hr [IH _]].
  - split; [reflexivity | intro ev; apply session_step_single].
  - subst s; rewrite session_step_single.
    split; [reflexivity | intro ev'; apply session_step_single].
Qed.

Lemma history_always_singleton_witness :
  reachable R (session_step (Session [R] R) BackClicked) /\
  session_step (Session [R] R) BackClicked = Session [R] R /\
  (forall ev, session_step (session_step (Session [R] R) BackClicked) ev =
              session_step (Session [R] R) BackClicked).
Proof.
  assert (H : reachable R (session_step (Session [R] R) BackClicked))
    by (apply reach_step; apply reach_init).
  split; [exact H | exact (history_always_singleton R _ H)].
Defined.

(** C7: [go_back] on a one-element history is a no-op (history and shown
    directory unchanged); on a longer one it pops one entry and shows the
    new top; in every reachable state the history has an element. *)
Theorem go_back_floor :
  (forall s : session, List.length (history s) = 1%nat ->
     session_step s BackClicked = s) /\
  (forall s : session, (1 < List.length (history s))%nat ->
     history (session_step s BackClicked) = removelast (history s) /\
     displayed (session_step s BackClicked) = last (removelast (history s)) []) /\
  (forall (root : path) (s : session), reachable root s ->
     (1 <= List.length (history s))%nat).
Proof.
  split; [| split].
  - intros [h d] Hl; cbn in *.
    unfold go_back; rewrite Hl; reflexivity.
  - intros [h d] Hl; cbn in *.
    unfold go_back.
    replace (1 <? Z.of_nat (List.length h)) with true by (symmetry; apply Z.ltb_lt; lia).
    split; reflexivity.
  - intros root s Hr.
    destruct (history_always_singleton root s Hr) as [-> _]; cbn; lia.
Qed.

Lemma go_back_floor_witness :
  session_step (Session [R] R) BackClicked = Session [R] R /\
  history (session_step (Session [R; R_A] R_A) BackClicked) = [R] /\
  displayed (session_step (Session [R; R_A] R_A) BackClicked) = R /\
  (1 <= List.length (history (Session [R] R)))%nat.
Proof.
  destruct go_back_floor as [H1 [H2 H3]].
  split; [apply H1; reflexivity |].
  destruct (H2 (Session [R; R_A] R_A)) as [Ha Hb]; [cbn; lia |].
  split; [exact Ha | split; [exact Hb |]].
  apply (H3 R); apply reach_init.
Defined.

(** The root listing of [perform_analysis] is outside any [try]: an
    existing directory whose listing is denied makes [analyze_and_plot]
    raise [PermissionError]. *)
Lemma analyze_and_plot_denied_root :
  analyze_and_plot (Dir true [("R"%string, Dir false [])]) R no_split [] =
    (inr PermissionError, [AnalyzingFolderSizes R]).
Proof. vm_compute; reflexivity. Qed.

(** C6 (the check returns, it does not raise): for a path that does not
    exist, [analyze_and_plot] prints its message and returns normally;
    nothing is raised to the caller. *)
Theorem analyze_and_plot_missing_returns :
  analyze_and_plot (Dir true []) ["nope"%string] no_split [] =
    (inl None, [DirectoryDoesNotExist]) /\
  ~ (exists e lg, analyze_and_plot (Dir true []) ["nope"%string] no_split [] = (inr e, lg)).
Proof.
  split; [reflexivity |].
  intros [e [lg H]]; vm_compute in H; discriminate.
Qed.

(** C6 (amended): [analyze_and_plot] takes its early return, printing
    "Directory does not exist." and returning [None] without raising, for
    every log, exactly when the path does not exist or names a file; for an
    existing directory it goes on to run a pass, [perform_analysis] on that
    directory, and returns the first session with the pass's snapshot or
    passes on the pass's exception. *)
Theorem analyze_and_plot_gate :
  forall (fs : node) (target : path) (elapsed : path -> Q),
    ((forall lg, analyze_and_plot fs target elapsed lg =
                 (inl None, lg ++ [DirectoryDoesNotExist])) <->
     (resolve fs target = inl None \/
      exists s, resolve fs target = inl (Some (File s)))) /\
    (forall (b : bool) (ch : list (string * node)) (lg : log),
       resolve fs target = inl (Some (Dir b ch)) ->
       analyze_and_plot fs target elapsed lg =
       match perform_analysis target (Dir b ch) elapsed lg with
       | (inl snap, lg') => (inl (Some (Session [target] target, snap)), lg')
       | (inr e, lg') => (inr e, lg')
       end).
Proof.
  intros fs target elapsed; split; [split |].
  - intro H; specialize (H []); unfold analyze_and_plot in H.
    destruct (resolve fs target) as [[[s | b ch] |] | e].
    + right; exists s; reflexivity.
    + cbn in H; unfold bind in H.
      destruct (perform_analysis target (Dir b ch) elapsed []) as [[? | ?] ?];
        discriminate.
    + left; reflexivity.
    + discriminate.
  - intros [H | [s H]] lg; unfold analyze_and_plot; rewrite H; reflexivity.
  - intros b ch lg H; unfold analyze_and_plot; rewrite H; cbn [is_dir].
    unfold bind, ret.
    destruct (perform_analysis target (Dir b ch) elapsed lg) as [[? | ?] ?]; reflexivity.
Qed.

Lemma analyze_and_plot_gate_witness :
  resolve (Dir true [("R"%string, tree_R)]) R =
    inl (Some (Dir true [("A"%string, Dir true [("a.bin"%string, File 2000)]);
                         ("B"%string, Dir true [("b1"%string, File 10);
                                                ("b2"%string, File 10)]);
                         ("f"%string, File 500)])) /\
  analyze_and_plot (Dir true [("R"%string, tree_R)]) R no_split [] =
  match perform_analysis R
          (Dir true [("A"%string, Dir true [("a.bin"%string, File 2000)]);
                     ("B"%string, Dir true [("b1"%string, File 10); ("b2"%string, File 10)]);
                     ("f"%string, File 500)]) no_split [] with
  | (inl snap, lg') => (inl (Some (Session [R] R, snap)), lg')
  | (inr e, lg') => (inr e, lg')
  end.
Proof.
  split; [reflexivity |].
  exact (proj2 (analyze_and_plot_gate (Dir true [("R"%string, tree_R)]) R no_split)
           true [("A"%string, Dir true [("a.bin"%string, File 2000)]);
                 ("B"%string, Dir true [("b1"%string, File 10); ("b2"%string, File 10)]);
                 ("f"%string, File 500)] [] eq_refl).
Defined.

(* ------------------------------------------------------------------ *)
(** ** Equations of the walks *)

Section NodeInduction.
Variable P : node -> Prop.
Hypothesis HFile : forall s, P (File s).
Hypothesis HDir : forall b ch, Forall (fun c => P (snd c)) ch -> P (Dir b ch).

Fixpoint node_ind' (n : node) : P n :=
  match n with
  | File s => HFile s
  | Dir b ch =>
      HDir b ch ((fix go (l : list (string * node)) : Forall (fun c => P (snd c)) l :=
                    match l with
                    | [] => Forall_nil _
                    | c :: t => Forall_cons c (node_ind' (snd c)) (go t)
                    end) ch)
  end.
End NodeInduction.

Lemma du_dir (b : bool) (ch : list (string * node)) :
  du (Dir b ch) = py_sum_list (map (fun c => du (snd c)) ch).
Proof.
  induction ch as [| [nm c] t IH]; [reflexivity |].
  cbn in *; rewrite IH; reflexivity.
Qed.

Lemma all_listable_dir (b : bool) (ch : list (string * node)) :
  all_listable (Dir b ch) = b && forallb (fun c => all_listable (snd c)) ch.
Proof.
  destruct b; [| reflexivity].
  induction ch as [| [nm c] t IH]; [reflexivity |].
  cbn in *; rewrite IH; reflexivity.
Qed.

Lemma rglob_dir (q : path) (ch : list (string * node)) :
  rglob q (Dir true ch) =
  children_of q ch ++ List.concat (map (fun c => rglob (q ++ [fst c]) (snd c)) ch).
Proof.
  induction ch as [| [nm c] t IH]; [reflexivity |].
  cbn in *. f_equal. apply app_inv_head in IH. rewrite IH; reflexivity.
Qed.

(** The bytes the loop of [analyze_subfolder] adds for a list of entries. *)
Definition files_total (xs : list entry) : Z :=
  py_sum_list (map (fun e => if is_file (snd e) then st_size (snd e) else 0) xs).

Lemma py_sum_list_app (l1 l2 : list Z) :
  py_sum_list (l1 ++ l2) = py_sum_list l1 + py_sum_list l2.
Proof. unfold py_sum_list; induction l1 as [| x l IH]; cbn; [reflexivity | rewrite IH; lia]. Qed.

Lemma files_total_app (l1 l2 : list entry) :
  files_total (l1 ++ l2) = files_total l1 + files_total l2.
Proof. unfold files_total; rewrite map_app; apply py_sum_list_app. Qed.

Lemma files_total_cons (e : entry) (l : list entry) :
  files_total (e :: l) =
  (if is_file (snd e) then st_size (snd e) else 0) + files_total l.
Proof. reflexivity. Qed.

(** On a fully listable tree, [rglob] reaches every file exactly once. *)
Lemma rglob_total (n : node) (q : path) :
  all_listable n = true -> is_dir n = true -> files_total (rglob q n) = du n.
Proof.
  revert q; induction n as [s | b ch IH] using node_ind'; intros q Hl Hd;
    [discriminate |].
  rewrite all_listable_dir in Hl; apply andb_true_iff in Hl as [-> Hl].
  rewrite rglob_dir, files_total_app, du_dir.
  induction ch as [| [nm c] t IHt]; [reflexivity |].
  inversion IH as [| ? ? Hc Ht]; subst.
  cbn [forallb snd] in Hl; apply andb_true_iff in Hl as [Hc1 Hl].
  specialize (IHt Ht Hl eq_refl).
  change (children_of q ((nm, c) :: t)) with ((q ++ [nm], c) :: children_of q t).
  cbn [map List.concat fst snd].
  rewrite files_total_cons, files_total_app.
  change (py_sum_list (du c :: map (fun c0 => du (snd c0)) t))
    with (du c + py_sum_list (map (fun c0 => du (snd c0)) t)).
  cbn [snd fst] in *.
  destruct c as [s | b' ch'].
  - change (rglob (q ++ [nm]) (File s)) with (@nil entry).
    change (files_total []) with 0; cbn [is_file st_size du]; lia.
  - cbn [is_file].
    rewrite (Hc (q ++ [nm]) Hc1 eq_refl). lia.
Qed.

(* ------------------------------------------------------------------ *)
(** ** Evaluating loops whose bodies do not raise *)

Lemma py_for_from_eval {X S} (xs : list X) (body : S -> X -> M S)
    (f : S -> X -> S) (g : X -> log) :
  (forall s x lg, In x xs -> body s x lg = (inl (f s x), lg ++ g x)) ->
  forall s v lg, exists v',
    py_for_from xs body s v lg =
    (inl (LoopOut (fold_left f xs s) v' None), lg ++ List.concat (map g xs)).
Proof.
  intro Hb; induction xs as [| x xs IH]; intros s v lg.
  - exists v; cbn; rewrite app_nil_r; reflexivity.
  - cbn [py_for_from]. rewrite (Hb s x lg (or_introl eq_refl)).
    destruct (IH (fun s' y lg' Hy => Hb s' y lg' (or_intror Hy)) (f s x) (Some x)
                 (lg ++ g x)) as [v' Hv].
    exists v'. rewrite Hv. cbn [fold_left map List.concat].
    rewrite app_assoc; reflexivity.
Qed.

Lemma py_sum_eval {X} (xs : list X) (f : X -> M Z) (h : X -> Z) :
  (forall x lg, In x xs -> f x lg = (inl (h x), lg)) ->
  forall lg, py_sum xs f lg = (inl (py_sum_list (map h xs)), lg).
Proof.
  intro Hf; induction xs as [| x xs IH]; intro lg; [reflexivity |].
  cbn [py_sum]; unfold bind at 1; rewrite (Hf x lg (or_introl eq_refl)).
  unfold bind; rewrite (IH (fun y lg' Hy => Hf y lg' (or_intror Hy)) lg).
  reflexivity.
Qed.

Lemma map_m_eval {X A} (xs : list X) (f : X -> M A) (h : X -> A) :
  (forall x lg, In x xs -> f x lg = (inl (h x), lg)) ->
  forall lg, map_m f xs lg = (inl (map h xs), lg).
Proof.
  intro Hf; induction xs as [| x xs IH]; intro lg; [reflexivity |].
  cbn [map_m]; unfold bind at 1; rewrite (Hf x lg (or_introl eq_refl)).
  unfold bind; rewrite (IH (fun y lg' Hy => Hf y lg' (or_intror Hy)) lg).
  reflexivity.
Qed.

Lemma fold_files_total (xs : list entry) (a : Z) :
  fold_left (fun total item => if is_file (snd item)
                               then total + st_size (snd item) else total) xs a =
  a + files_total xs.
Proof.
  revert a; induction xs as [| x xs IH]; intro a; cbn [fold_left].
  - change (files_total []) with 0; lia.
  - rewrite IH, files_total_cons. destruct (is_file (snd x)); lia.
Qed.

(** [analyze_subfolder] prints nothing and returns the bytes of the files
    [rglob] yields. *)
Lemma analyze_subfolder_eval (q : path) (n : node) (lg : log) :
  analyze_subfolder q n lg = (inl (files_total (rglob q n)), lg).
Proof.
  unfold analyze_subfolder, bind, py_for, ret at 1.
  destruct (py_for_from_eval (rglob q n)
              (fun total item => if is_file (snd item)
                                 then ret (total + st_size (snd item)) else ret total)
              (fun total item => if is_file (snd item)
                                 then total + st_size (snd item) else total)
              (fun _ => []))
    with (s := 0) (v := @None entry) (lg := lg) as [v' Hv].
  { intros s x lg' _; rewrite app_nil_r; destruct (is_file (snd x)); reflexivity. }
  rewrite Hv, fold_files_total.
  assert (Hc : forall l : list entry, List.concat (map (fun _ => @nil event) l) = []).
  { induction l; cbn; auto. }
  rewrite Hc, app_nil_r; reflexivity.
Qed.

(** What the loop of [get_total_folder_size] adds for one entry. *)
Definition entry_total (x : entry) : Z :=
  if is_file (snd x) then st_size (snd x)
  else if is_dir (snd x) then files_total (rglob (fst x) (snd x))
  else 0.

Lemma fold_entry_total (xs : list entry) (a : Z) :
  fold_left (fun total x => total + entry_total x) xs a =
  a + py_sum_list (map entry_total xs).
Proof.
  revert a; induction xs as [| x xs IH]; intro a; cbn [fold_left map].
  - cbn; lia.
  - rewrite IH. change (py_sum_list (entry_total x :: map entry_total xs))
      with (entry_total x + py_sum_list (map entry_total xs)). lia.
Qed.

Lemma no_events (xs : list entry) :
  List.concat (map (fun _ => @nil event) xs) = [].
Proof. induction xs; cbn; auto. Qed.

(** Below the threshold, [get_total_folder_size] on a listable directory
    prints nothing and returns the sum of [entry_total] over its
    children. *)
Lemma get_total_folder_size_eval (q : path) (ch : list (string * node))
    (e : Q) (lg : log) :
  over_threshold e = false ->
  get_total_folder_size q (Dir true ch) e lg =
  (inl (py_sum_list (map entry_total (children_of q ch))), lg).
Proof.
  intro He. unfold get_total_folder_size. rewrite He.
  unfold bind at 1; unfold py_for, iterdir, ret at 1.
  destruct (py_for_from_eval (children_of q ch)
              (fun total item =>
                 if is_file (snd item) then ret (total + st_size (snd item))
                 else if is_dir (snd item) then
                   a <- analyze_subfolder (fst item) (snd item) ;; ret (total + a)
                 else ret total)
              (fun total x => total + entry_total x) (fun _ => []))
    with (s := 0) (v := @None entry) (lg := lg) as [v' Hv].
  { intros s x lg' _. rewrite app_nil_r. unfold entry_total.
    destruct (is_file (snd x)); [reflexivity |].
    destruct (is_dir (snd x)); [| rewrite Z.add_0_r; reflexivity].
    unfold bind; rewrite analyze_subfolder_eval; reflexivity. }
  rewrite Hv, fold_entry_total, no_events, app_nil_r. reflexivity.
Qed.

Lemma files_of_filter (xs : list entry) :
  py_sum_list (map (fun item => st_size (snd item))
                   (filter (fun item => is_file (snd item)) xs)) =
  files_total xs.
Proof.
  induction xs as [| x xs IH]; [reflexivity |].
  rewrite files_total_cons; cbn [filter].
  destruct (is_file (snd x)); cbn [map]; rewrite <- IH; [reflexivity | lia].
Qed.

(** Below the threshold, [analyze_folder] on a listable directory prints
    nothing and returns its immediate files and [get_total_folder_size]. *)
Lemma analyze_folder_eval (q : path) (ch : list (string * node))
    (e : Q) (lg : log) :
  over_threshold e = false ->
  analyze_folder q (Dir true ch) e lg =
  (inl (q, files_total (children_of q ch),
        py_sum_list (map entry_total (children_of q ch))), lg).
Proof.
  intro He. unfold analyze_folder, try_access, bind at 1, iterdir, ret at 1.
  unfold bind at 1.
  rewrite (py_sum_eval _ _ (fun item => st_size (snd item)))
    by (intros; reflexivity).
  rewrite files_of_filter.
  unfold bind; rewrite (get_total_folder_size_eval q ch e lg He).
  reflexivity.
Qed.

Lemma entry_total_listable (x : entry) :
  all_listable (snd x) = true -> entry_total x = du (snd x).
Proof.
  destruct x as [q [s | b ch]]; intro Hl; [reflexivity |].
  unfold entry_total; cbn [snd fst is_file is_dir].
  apply rglob_total; [exact Hl | reflexivity].
Qed.

Lemma sum_entry_total_listable (q : path) (b : bool) (ch : list (string * node)) :
  forallb (fun c => all_listable (snd c)) ch = true ->
  py_sum_list (map entry_total (children_of q ch)) = du (Dir b ch).
Proof.
  intro Hl; rewrite du_dir.
  induction ch as [| c t IH]; [reflexivity |].
  cbn [forallb] in Hl; apply andb_true_iff in Hl as [Hc Hl].
  change (py_sum_list (entry_total (q ++ [fst c], snd c) :: map entry_total (children_of q t))
          = py_sum_list (du (snd c) :: map (fun c0 => du (snd c0)) t)).
  cbn [py_sum_list fold_right].
  fold (py_sum_list (map entry_total (children_of q t))).
  fold (py_sum_list (map (fun c0 : string * node => du (snd c0)) t)).
  rewrite (entry_total_listable (q ++ [fst c], snd c) Hc), IH by exact Hl.
  reflexivity.
Qed.

(* ------------------------------------------------------------------ *)
(** ** Dicts built with distinct keys *)

Lemma path_eqb_false (p q : path) : p <> q -> path_eqb p q = false.
Proof. unfold path_eqb; destruct (list_eq_dec string_dec p q); congruence. Qed.

Lemma dict_set_fresh (d : list (path * Z)) (k : path) (v : Z) :
  ~ In k (map fst d) -> dict_set d k v = d ++ [(k, v)].
Proof.
  induction d as [| [k' v'] t IH]; intro Hn; [reflexivity |].
  cbn [map fst In] in Hn; cbn [dict_set app].
  rewrite path_eqb_false by (intro; apply Hn; left; congruence).
  rewrite IH by (intro; apply Hn; right; assumption). reflexivity.
Qed.

Lemma fold_dict_set_fresh {X} (k : X -> path) (v : X -> Z) (xs : list X) :
  forall acc, NoDup (map fst acc ++ map k xs) ->
  fold_left (fun d x => dict_set d (k x) (v x)) xs acc =
  acc ++ map (fun x => (k x, v x)) xs.
Proof.
  induction xs as [| x xs IH]; intros acc Hnd; cbn [fold_left map].
  - rewrite app_nil_r; reflexivity.
  - rewrite dict_set_fresh.
    + rewrite IH; [rewrite <- app_assoc; reflexivity |].
      rewrite map_app, <- app_assoc; exact Hnd.
    + intro Hin. apply NoDup_remove_2 in Hnd. apply Hnd, in_or_app; left; exact Hin.
Qed.

Lemma NoDup_map_injective {A B} (f : A -> B) (l : list A) :
  (forall a b, f a = f b -> a = b) -> NoDup l -> NoDup (map f l).
Proof.
  intros Hinj Hnd; induction Hnd as [| a l Ha Hnd IH]; cbn; constructor; auto.
  intro Hin; apply in_map_iff in Hin as [a' [Heq Hin]].
  apply Hinj in Heq; subst; contradiction.
Qed.

Lemma NoDup_fst_filter {A B} (p : A * B -> bool) (l : list (A * B)) :
  NoDup (map fst l) -> NoDup (map fst (filter p l)).
Proof.
  induction l as [| x l IH]; intro Hnd; [constructor |].
  inversion Hnd as [| ? ? Hx Hl]; subst.
  cbn [filter]; destruct (p x); [| auto].
  cbn [map]; constructor; [| auto].
  intro Hin; apply Hx.
  apply in_map_iff in Hin as [y [Hy Hin]]; apply filter_In in Hin as [Hin _].
  rewrite <- Hy; apply in_map; exact Hin.
Qed.

Lemma NoDup_children (d : path) (ch : list (string * node)) :
  NoDup (map fst ch) -> NoDup (map fst (children_of d ch)).
Proof.
  intro Hnd; unfold children_of; rewrite map_map; cbn.
  rewrite <- (map_map fst (fun nm => d ++ [nm])).
  apply NoDup_map_injective; [| exact Hnd].
  intros a b Hab; apply app_inv_head in Hab; congruence.
Qed.

Lemma fold_if_filter {X A} (p : X -> bool) (f : A -> X -> A) (xs : list X) :
  forall a, fold_left (fun acc x => if p x then f acc x else acc) xs a =
            fold_left f (filter p xs) a.
Proof.
  induction xs as [| x xs IH]; intro a; [reflexivity |].
  cbn [fold_left filter]; destruct (p x); apply IH.
Qed.

Lemma sum_dict_values {X} (k : X -> path) (v : X -> Z) (xs : list X) :
  py_sum_list (dict_values (map (fun x => (k x, v x)) xs)) = py_sum_list (map v xs).
Proof. unfold dict_values; rewrite map_map; reflexivity. Qed.

(** Directories and files partition a listing. *)
Lemma sum_dirs_files (l : list entry) :
  py_sum_list (map (fun x => du (snd x)) (filter (fun x => is_dir (snd x)) l)) +
  py_sum_list (map (fun x => st_size (snd x)) (filter (fun x => is_file (snd x)) l)) =
  py_sum_list (map (fun x => du (snd x)) l).
Proof.
  unfold py_sum_list.
  induction l as [| [q [s | b ch]] l IH]; [reflexivity | |];
    cbn [filter snd is_dir is_file map fold_right st_size du] in *; lia.
Qed.

(** [analyze_files_in_directory] on a listable directory. *)
Lemma analyze_files_eval (d : path) (ch : list (string * node)) (lg : log) :
  analyze_files_in_directory d (Dir true ch) lg =
  (inl (fold_left (fun info file => dict_set info (fst file) (st_size (snd file)))
                  (filter (fun file => is_file (snd file)) (children_of d ch)) []), lg).
Proof.
  unfold analyze_files_in_directory, bind at 1, py_for, iterdir, ret at 1.
  destruct (py_for_from_eval (children_of d ch)
              (fun files_info file =>
                 if is_file (snd file)
                 then ret (dict_set files_info (fst file) (st_size (snd file)))
                 else ret files_info)
              (fun info file => if is_file (snd file)
                                then dict_set info (fst file) (st_size (snd file))
                                else info)
              (fun _ => []))
    with (s := @nil (path * Z)) (v := @None entry) (lg := lg) as [v' Hv].
  { intros s x lg' _; rewrite app_nil_r; destruct (is_file (snd x)); reflexivity. }
  rewrite Hv, no_events, app_nil_r.
  rewrite (fold_if_filter (fun file => is_file (snd file))
             (fun info file => dict_set info (fst file) (st_size (snd file)))).
  reflexivity.
Qed.

(* ------------------------------------------------------------------ *)
(** ** One pass over a listable tree below the threshold *)

Lemma fold_left_map' {X Y A} (f : A -> Y -> A) (g : X -> Y) (l : list X) :
  forall a, fold_left f (map g l) a = fold_left (fun a x => f a (g x)) l a.
Proof. induction l as [| x l IH]; intro a; [reflexivity | apply IH]. Qed.

(** The value of the task [analyze_folder(sub)] by [analyze_folder_eval]. *)
Definition folder_result (x : entry) : path * Z * Z :=
  match snd x with
  | Dir _ ch' => (fst x, files_total (children_of (fst x) ch'),
                  py_sum_list (map entry_total (children_of (fst x) ch')))
  | File _ => (fst x, 0, 0)
  end.

(** The collection loop of [perform_analysis] as a function of the
    snapshot, and what it prints. *)
Definition collect_step (s : snapshot) (f : (path * Z * Z) + exn) : snapshot :=
  match f with
  | inl (sub, fz, tot) =>
      Snapshot (dict_set (folder_sizes s) sub tot) (dict_set (files_sizes s) sub fz)
               (files_info s)
  | inr _ => s
  end.

Definition collect_log (f : (path * Z * Z) + exn) : log :=
  match f with
  | inl (sub, fz, tot) => [FolderSummary sub tot fz]
  | inr _ => []
  end.

Lemma collect_projections (rs : list (path * Z * Z)) :
  forall s,
    folder_sizes (fold_left collect_step (map inl rs) s) =
    fold_left (fun d r => dict_set d (fst (fst r)) (snd r)) rs (folder_sizes s) /\
    files_info (fold_left collect_step (map inl rs) s) = files_info s.
Proof.
  induction rs as [| [[sub fz] tot] rs IH]; intro s; [split; reflexivity |].
  cbn [map fold_left]. destruct (IH (collect_step s (inl (sub, fz, tot)))) as [H1 H2].
  rewrite H1, H2; split; reflexivity.
Qed.

Lemma in_children (d : path) (ch : list (string * node)) (x : entry) :
  In x (children_of d ch) -> exists nm, x = (d ++ [nm], snd x) /\ In (nm, snd x) ch.
Proof.
  unfold children_of; intro Hin; apply in_map_iff in Hin as [[nm c] [Hx Hin]].
  subst x; exists nm; split; [reflexivity | exact Hin].
Qed.

(** C1: on a tree where every directory can be listed, with distinct names
    in the analysed directory and every walk below the 3-second
    threshold, the pass succeeds and the totals of the subfolders plus the
    root-level files add up to every byte under the root, as counted by
    the walker [du]. *)
Theorem conservation :
  forall (d : path) (ch : list (string * node)) (elapsed : path -> Q) (lg : log),
    all_listable (Dir true ch) = true ->
    NoDup (map fst ch) ->
    (forall q, over_threshold (elapsed q) = false) ->
    exists snap lg',
      perform_analysis d (Dir true ch) elapsed lg = (inl snap, lg') /\
      py_sum_list (dict_values (folder_sizes snap)) +
      py_sum_list (dict_values (files_info snap)) = du (Dir true ch).
Proof.
  intros d ch elapsed lg Hl Hnd Hel.
  rewrite all_listable_dir in Hl; cbn [andb] in Hl.
  set (dirs := filter (fun sub => is_dir (snd sub)) (children_of d ch)).
  assert (Hdirs : forall x lg0, In x dirs ->
            submit (analyze_folder (fst x) (snd x) (elapsed (fst x))) lg0 =
            (inl (inl (folder_result x)), lg0)).
  { intros x lg0 Hin. apply filter_In in Hin as [Hin Hdir].
    destruct (in_children d ch x Hin) as [nm [Hx Hinch]].
    pose proof (proj1 (forallb_forall _ ch) Hl _ Hinch) as Hlx; cbn [snd] in Hlx.
    destruct x as [q [s | b ch']]; [discriminate |].
    cbn [snd] in *; rewrite all_listable_dir in Hlx.
    destruct b; [| discriminate].
    unfold submit; rewrite analyze_folder_eval by apply Hel; reflexivity. }
  unfold perform_analysis, bind at 1, print at 1.
  unfold bind at 1, iterdir at 1, ret at 1.
  unfold bind at 1.
  rewrite (map_m_eval dirs
             (fun sub => submit (analyze_folder (fst sub) (snd sub) (elapsed (fst sub))))
             (fun x => inl (folder_result x)) Hdirs).
  unfold bind at 1; rewrite analyze_files_eval.
  unfold bind at 1, py_for at 1, ret at 1.
  match goal with
  | |- context [py_for_from ?xs ?body ?s0 ?v0 ?lg0] =>
      destruct (py_for_from_eval xs body collect_step collect_log) with
        (s := s0) (v := v0) (lg := lg0) as [v' Hv]
  end.
  { intros s x lg0 Hin. apply in_map_iff in Hin as [y [<- _]].
    destruct (folder_result y) as [[sub fz] tot]; reflexivity. }
  rewrite Hv; cbn [interrupted locals].
  eexists; eexists; split; [reflexivity |].
  rewrite <- (map_map folder_result inl).
  match goal with |- context [fold_left collect_step _ ?s0] =>
    destruct (collect_projections (map folder_result dirs) s0) as [H1 H2] end.
  rewrite H1, H2; cbn [folder_sizes files_info].
  rewrite fold_left_map'.
  assert (Hk : forall x, fst (fst (folder_result x)) = fst x)
    by (intros [q [s | b ch']]; reflexivity).
  rewrite (fold_dict_set_fresh (fun x => fst (fst (folder_result x)))
             (fun x => snd (folder_result x)) dirs []).
  2: { cbn [map app]; rewrite (map_ext _ fst Hk).
       apply NoDup_fst_filter, NoDup_children, Hnd. }
  rewrite (fold_dict_set_fresh fst (fun file => st_size (snd file))).
  2: { cbn [map app]; apply NoDup_fst_filter, NoDup_children, Hnd. }
  cbn [app]; rewrite !sum_dict_values.
  rewrite (map_ext_in (fun x => snd (folder_result x)) (fun x => du (snd x)) dirs).
  2: { intros x Hin. apply filter_In in Hin as [Hin Hdir].
       destruct (in_children d ch x Hin) as [nm [Hx Hinch]].
       pose proof (proj1 (forallb_forall _ ch) Hl _ Hinch) as Hlx; cbn [snd] in Hlx.
       destruct x as [q [s | b ch']]; [discriminate |].
       cbn [snd] in *. pose proof Hlx as Hlx'.
       rewrite all_listable_dir in Hlx'; apply andb_true_iff in Hlx' as [_ Hall].
       unfold folder_result; cbn [snd fst].
       apply sum_entry_total_listable; exact Hall. }
  unfold dirs; rewrite sum_dirs_files.
  unfold children_of; rewrite map_map; cbn [snd].
  rewrite du_dir; reflexivity.
Qed.

Lemma conservation_witness :
  all_listable tree_R = true /\ NoDup ["A"%string; "B"%string; "f"%string] /\
  exists snap lg',
    perform_analysis R tree_R no_split [] = (inl snap, lg') /\
    py_sum_list (dict_values (folder_sizes snap)) +
    py_sum_list (dict_values (files_info snap)) = du tree_R.
Proof.
  assert (Hnd : NoDup ["A"%string; "B"%string; "f"%string]).
  { repeat constructor; cbn; intuition discriminate. }
  split; [reflexivity | split; [exact Hnd |]].
  unfold tree_R; apply (conservation R _ no_split []);
    [reflexivity | exact Hnd | intro q; reflexivity].
Defined.

(* ------------------------------------------------------------------ *)
(** ** The measured times matter only through the threshold *)

Lemma analyze_folder_elapsed (q : path) (n : node) (e : Q) (lg : log) :
  over_threshold e = false ->
  analyze_folder q n e lg = analyze_folder q n 0 lg.
Proof.
  intro He; unfold analyze_folder, get_total_folder_size; rewrite He; reflexivity.
Qed.

Lemma map_m_ext_in {X A} (f g : X -> M A) (xs : list X) :
  (forall x lg, In x xs -> f x lg = g x lg) ->
  forall lg, map_m f xs lg = map_m g xs lg.
Proof.
  intro Hfg; induction xs as [| x xs IH]; intro lg; [reflexivity |].
  cbn [map_m]; unfold bind; cbv beta; rewrite (Hfg x lg (or_introl eq_refl)).
  destruct (g x lg) as [[a | e] lg']; [| reflexivity].
  rewrite (IH (fun y lg0 Hy => Hfg y lg0 (or_intror Hy)) lg'); reflexivity.
Qed.

Lemma perform_analysis_elapsed (d : path) (n : node) (elapsed : path -> Q)
    (lg : log) :
  (forall q, over_threshold (elapsed q) = false) ->
  perform_analysis d n elapsed lg = perform_analysis d n no_split lg.
Proof.
  intro Hel. unfold perform_analysis, bind, print; cbv beta.
  destruct (iterdir d n (lg ++ [AnalyzingFolderSizes d])) as [[items | e] lg1];
    [| reflexivity].
  rewrite (map_m_ext_in
             (fun sub => submit (analyze_folder (fst sub) (snd sub) (elapsed (fst sub))))
             (fun sub => submit (analyze_folder (fst sub) (snd sub) (no_split (fst sub))))).
  - reflexivity.
  - intros x lg0 _; unfold submit; rewrite analyze_folder_elapsed by apply Hel.
    reflexivity.
Qed.

(** C5 (the spec's pairs): on /R, /R/A's immediate files are not 0 bytes:
    the 2000-byte file sits directly in /R/A, so the pass reports (2000,
    2000) where the claim has (0, 2000). *)
Theorem concrete_scenario_immediate_files :
  ~ (exists s lg, perform_analysis R tree_R no_split [] = (inl s, lg) /\
       dict_get (files_sizes s) R_A = Some 0 /\
       dict_get (files_sizes s) R_B = Some 0).
Proof.
  intros [s [lg [H [HA _]]]]. vm_compute in H. injection H as <- _.
  vm_compute in HA. discriminate.
Qed.

(** C5 (amended): when no walk of /R/A or /R/B exceeds the threshold, one
    pass over /R yields totals {A: 2000, B: 20}, immediate files
    {A: 2000, B: 20} and root files {f: 500}; the conservation total is
    2520. *)
Theorem concrete_scenario :
  forall elapsed : path -> Q,
    (forall q, over_threshold (elapsed q) = false) ->
    perform_analysis R tree_R elapsed [] =
      (inl (Snapshot [(R_A, 2000); (R_B, 20)] [(R_A, 2000); (R_B, 20)] [(R_f, 500)]),
       [AnalyzingFolderSizes R; FolderSummary R_A 2000 2000;
        FolderSummary R_B 20 20]) /\
    py_sum_list (dict_values [(R_A, 2000); (R_B, 20)]) +
    py_sum_list (dict_values [(R_f, 500)]) = 2520.
Proof.
  intros elapsed Hel; rewrite (perform_analysis_elapsed _ _ _ _ Hel).
  split; vm_compute; reflexivity.
Qed.

Lemma concrete_scenario_witness :
  (forall q, over_threshold (no_split q) = false) /\
  perform_analysis R tree_R no_split [] =
    (inl (Snapshot [(R_A, 2000); (R_B, 20)] [(R_A, 2000); (R_B, 20)] [(R_f, 500)]),
     [AnalyzingFolderSizes R; FolderSummary R_A 2000 2000;
      FolderSummary R_B 20 20]).
Proof.
  split; [intro q; reflexivity |].
  exact (proj1 (concrete_scenario no_split (fun _ => eq_refl))).
Defined.

(* ------------------------------------------------------------------ *)
(** ** Further properties of the code *)

(** Total bytes of the files reachable through listable directories. *)
Fixpoint du_listable (n : node) : Z :=
  match n with
  | File s => s
  | Dir true ch =>
      (fix go (l : list (string * node)) : Z :=
         match l with [] => 0 | (_, c) :: t => du_listable c + go t end) ch
  | Dir false _ => 0
  end.

Lemma du_listable_dir (ch : list (string * node)) :
  du_listable (Dir true ch) = py_sum_list (map (fun c => du_listable (snd c)) ch).
Proof.
  induction ch as [| [nm c] t IH]; [reflexivity |].
  cbn in *; rewrite IH; reflexivity.
Qed.

(** [rglob] from any directory reaches exactly the files below listable
    directories. *)
Lemma rglob_listable_total (n : node) (q : path) :
  files_total (rglob q n) = if is_dir n then du_listable n else 0.
Proof.
  revert q; induction n as [s | b ch IH] using node_ind'; intro q; [reflexivity |].
  destruct b; [| reflexivity].
  cbn [is_dir]; rewrite rglob_dir, files_total_app, du_listable_dir.
  induction ch as [| [nm c] t IHt]; [reflexivity |].
  inversion IH as [| ? ? Hc Ht]; subst.
  specialize (IHt Ht).
  change (children_of q ((nm, c) :: t)) with ((q ++ [nm], c) :: children_of q t).
  cbn [map List.concat fst snd].
  rewrite files_total_cons, files_total_app.
  change (py_sum_list (du_listable c :: map (fun c0 => du_listable (snd c0)) t))
    with (du_listable c + py_sum_list (map (fun c0 => du_listable (snd c0)) t)).
  cbn [snd fst] in *.
  rewrite (Hc (q ++ [nm])).
  destruct c as [s | [|] ch']; cbn [is_file is_dir st_size du_listable]; lia.
Qed.

Lemma entry_total_du_listable (x : entry) : entry_total x = du_listable (snd x).
Proof.
  destruct x as [q [s | b ch]]; [reflexivity |].
  unfold entry_total; cbn [snd fst is_file is_dir].
  rewrite rglob_listable_total; reflexivity.
Qed.

Lemma sum_entry_total_du_listable (q : path) (ch : list (string * node)) :
  py_sum_list (map entry_total (children_of q ch)) = du_listable (Dir true ch).
Proof.
  rewrite du_listable_dir; unfold children_of; rewrite map_map.
  f_equal; apply map_ext; intro c; apply entry_total_du_listable.
Qed.

(** [analyze_subfolder] as the bytes reachable through listable directories. *)
Lemma analyze_subfolder_listable (q : path) (n : node) (lg : log) :
  analyze_subfolder q n lg = (inl (if is_dir n then du_listable n else 0), lg).
Proof. rewrite analyze_subfolder_eval, rglob_listable_total; reflexivity. Qed.

(** On trees whose directories are each fully accessible or of mode 000,
    [analyze_subfolder] never raises and never prints: [rglob] swallows
    the [PermissionError] of a mode-000 directory and [is_file] of an entry
    of an accessible directory does not fail, so its [except] clause is not
    reached, and a mode-000 folder below [folder] is counted as 0 bytes
    without a diagnostic.  Its result is the bytes reachable through
    listable directories (0 for a file). *)
Theorem analyze_subfolder_silent :
  forall (q : path) (n : node) (lg : log),
    analyze_subfolder q n lg = (inl (if is_dir n then du_listable n else 0), lg).
Proof. intros q n lg; apply analyze_subfolder_listable. Qed.

(** [format_size] never shows 0 or 1024 or more in front of "KB" or "MB":
    the number shown is the floor quotient, between 1 and 1023; in front
    of "B" it is the size itself, and in front of "GB" at least 1. *)
Theorem format_size_ranges :
  forall n : Z,
    (0 <= n < 1024 -> format_size n = (py_str n ++ " B")%string) /\
    (1024 <= n < 1048576 -> exists k, format_size n = (py_str k ++ " KB")%string /\
                                      k = n / 1024 /\ 1 <= k <= 1023) /\
    (1048576 <= n < 1073741824 ->
       exists k, format_size n = (py_str k ++ " MB")%string /\
                 k = n / 1048576 /\ 1 <= k <= 1023) /\
    (1073741824 <= n -> exists k, format_size n = (py_str k ++ " GB")%string /\
                                  k = n / 1073741824 /\ 1 <= k).
Proof.
  intro n; unfold format_size; repeat split; intros H.
  - replace (n <? 1024) with true by (symmetry; apply Z.ltb_lt; lia); reflexivity.
  - replace (n <? 1024) with false by (symmetry; apply Z.ltb_ge; lia).
    replace (n <? 1048576) with true by (symmetry; apply Z.ltb_lt; lia).
    exists (n / 1024); split; [reflexivity | split; [reflexivity |]].
    split; [apply Z.div_le_lower_bound; lia |].
    assert (n / 1024 < 1024) by (apply Z.div_lt_upper_bound; lia); lia.
  - replace (n <? 1024) with false by (symmetry; apply Z.ltb_ge; lia).
    replace (n <? 1048576) with false by (symmetry; apply Z.ltb_ge; lia).
    replace (n <? 1073741824) with true by (symmetry; apply Z.ltb_lt; lia).
    exists (n / 1048576); split; [reflexivity | split; [reflexivity |]].
    split; [apply Z.div_le_lower_bound; lia |].
    assert (n / 1048576 < 1024) by (apply Z.div_lt_upper_bound; lia); lia.
  - replace (n <? 1024) with false by (symmetry; apply Z.ltb_ge; lia).
    replace (n <? 1048576) with false by (symmetry; apply Z.ltb_ge; lia).
    replace (n <? 1073741824) with false by (symmetry; apply Z.ltb_ge; lia).
    exists (n / 1073741824); split; [reflexivity | split; [reflexivity |]].
    apply Z.div_le_lower_bound; lia.
Qed.

Lemma format_size_ranges_witness :
  format_size 5 = "5 B"%string /\
  (exists k, format_size 1048575 = (py_str k ++ " KB")%string /\
             k = 1048575 / 1024 /\ 1 <= k <= 1023) /\
  (exists k, format_size 1073741823 = (py_str k ++ " MB")%string /\
             k = 1073741823 / 1048576 /\ 1 <= k <= 1023) /\
  (exists k, format_size 1073741824 = (py_str k ++ " GB")%string /\
             k = 1073741824 / 1073741824 /\ 1 <= k).
Proof.
  split; [exact (proj1 (format_size_ranges 5) ltac:(lia)) |].
  split; [exact (proj1 (proj2 (format_size_ranges 1048575)) ltac:(lia)) |].
  split; [exact (proj1 (proj2 (proj2 (format_size_ranges 1073741823))) ltac:(lia)) |].
  exact (proj2 (proj2 (proj2 (format_size_ranges 1073741824))) ltac:(lia)).
Defined.

Lemma du_listable_children (q : path) (ch : list (string * node)) :
  du_listable (Dir true ch) =
  py_sum_list (map (fun x => du_listable (snd x)) (children_of q ch)).
Proof. rewrite du_listable_dir; unfold children_of; rewrite map_map; reflexivity. Qed.

(** Subdirectories and files partition a listing. *)
Lemma sum_dirs_files_listable (l : list entry) :
  py_sum_list (map (fun x => du_listable (snd x)) (filter (fun x => is_dir (snd x)) l)) +
  files_total l =
  py_sum_list (map (fun x => du_listable (snd x)) l).
Proof.
  unfold files_total, py_sum_list.
  induction l as [| [q [s | b ch]] l IH]; [reflexivity | |];
    cbn [filter snd is_dir is_file map fold_right st_size] in *.
  - change (du_listable (File s)) with s; lia.
  - lia.
Qed.

Lemma split_analysis_eval (q : path) (ch : list (string * node)) (lg : log) :
  split_analysis q (Dir true ch) lg =
  (inl (du_listable (Dir true ch) - files_total (children_of q ch)), lg).
Proof.
  unfold split_analysis, bind at 1, iterdir, ret at 1.
  unfold bind.
  rewrite (map_m_eval _ _
             (fun sub => inl (if is_dir (snd sub) then du_listable (snd sub) else 0)))
    by (intros x lg0 _; unfold submit; rewrite analyze_subfolder_listable; reflexivity).
  rewrite (py_sum_eval _ future_result
             (fun f : Z + exn => match f with inl a => a | inr _ => 0 end)).
  2: { intros f lg0 Hin; apply in_map_iff in Hin as [x [<- _]]; reflexivity. }
  rewrite map_map.
  rewrite (map_ext_in _ (fun x => du_listable (snd x))).
  2: { intros x Hin; apply filter_In in Hin as [_ Hd]; rewrite Hd; reflexivity. }
  rewrite (du_listable_children q), <- (sum_dirs_files_listable (children_of q ch)).
  f_equal; f_equal; lia.
Qed.

Lemma get_total_folder_size_listable (q : path) (ch : list (string * node))
    (e : Q) (lg : log) :
  get_total_folder_size q (Dir true ch) e lg =
  (if over_threshold e
   then print (SplittingAnalysis q) ;; split_analysis q (Dir true ch)
   else ret (du_listable (Dir true ch))) lg.
Proof.
  unfold get_total_folder_size.
  unfold bind at 1; unfold py_for, iterdir, ret at 1.
  destruct (py_for_from_eval (children_of q ch)
              (fun total item =>
                 if is_file (snd item) then ret (total + st_size (snd item))
                 else if is_dir (snd item) then
                   a <- analyze_subfolder (fst item) (snd item) ;; ret (total + a)
                 else ret total)
              (fun total x => total + entry_total x) (fun _ => []))
    with (s := 0) (v := @None entry) (lg := lg) as [v' Hv].
  { intros s x lg' _. rewrite app_nil_r. unfold entry_total.
    destruct (is_file (snd x)); [reflexivity |].
    destruct (is_dir (snd x)); [| rewrite Z.add_0_r; reflexivity].
    unfold bind; rewrite analyze_subfolder_eval; reflexivity. }
  rewrite Hv, fold_entry_total, no_events, app_nil_r.
  rewrite sum_entry_total_du_listable, Z.add_0_l.
  reflexivity.
Qed.

(** The cases of [get_total_folder_size]. *)
Lemma get_total_folder_size_cases (q : path) (n : node) (e : Q) (lg : log) :
  get_total_folder_size q n e lg =
  match n with
  | File _ => (inr NotADirectoryError, lg)
  | Dir true ch =>
      if over_threshold e
      then (inl (du_listable (Dir true ch) - files_total (children_of q ch)),
            lg ++ [SplittingAnalysis q])
      else (inl (du_listable (Dir true ch)), lg)
  | Dir false _ =>
      if over_threshold e
      then (inr PermissionError, lg ++ [SkipInaccessibleFolder q; SplittingAnalysis q])
      else (inl 0, lg ++ [SkipInaccessibleFolder q])
  end.
Proof.
  destruct n as [s | [|] ch].
  - reflexivity.
  - rewrite get_total_folder_size_listable.
    destruct (over_threshold e); [| reflexivity].
    unfold bind, print; rewrite split_analysis_eval; reflexivity.
  - unfold get_total_folder_size, bind, py_for, iterdir, raise, except_access, print.
    cbn. destruct (over_threshold e); [rewrite <- app_assoc |]; reflexivity.
Qed.

(** On trees whose directories are each fully accessible or of mode 000:
    on an accessible folder it prints nothing below the threshold and
    returns the bytes reachable through listable directories; over it, it
    prints the split message and returns what [split_analysis] sums: the
    subdirectories only, without the folder's own files.  On a mode-000
    folder it prints the skip message and returns 0; over the threshold the
    split then re-lists the folder and raises [PermissionError] after both
    messages.  On a file, [NotADirectoryError] is not caught. *)
Theorem get_total_folder_size_outcome :
  forall (q : path) (n : node) (e : Q) (lg : log),
    get_total_folder_size q n e lg =
    match n with
    | File _ => (inr NotADirectoryError, lg)
    | Dir true ch =>
        if over_threshold e
        then (inl (du_listable (Dir true ch) - files_total (children_of q ch)),
              lg ++ [SplittingAnalysis q])
        else (inl (du_listable (Dir true ch)), lg)
    | Dir false _ =>
        if over_threshold e
        then (inr PermissionError, lg ++ [SkipInaccessibleFolder q; SplittingAnalysis q])
        else (inl 0, lg ++ [SkipInaccessibleFolder q])
    end.
Proof. intros q n e lg; apply get_total_folder_size_cases. Qed.

(** On trees whose directories are each fully accessible or of mode 000,
    [split_analysis] on an accessible folder prints nothing, never raises
    and returns the bytes of its subdirectories (reachable through
    accessible directories): the folder's own files are left out.  Its
    listing is unguarded: on a mode-000 folder it raises
    [PermissionError]. *)
Theorem split_analysis_outcome :
  forall (q : path) (b : bool) (ch : list (string * node)) (lg : log),
    split_analysis q (Dir b ch) lg =
    if b then (inl (du_listable (Dir true ch) - files_total (children_of q ch)), lg)
    else (inr PermissionError, lg).
Proof.
  intros q [|] ch lg; [apply split_analysis_eval | reflexivity].
Qed.

(** The cases of [analyze_folder]. *)
Lemma analyze_folder_cases (q : path) (n : node) (e : Q) (lg : log) :
  analyze_folder q n e lg =
  match n with
  | File _ => (inr NotADirectoryError, lg)
  | Dir false _ => (inl (q, 0, 0), lg ++ [SkipInaccessibleFolder q])
  | Dir true ch =>
      if over_threshold e
      then (inl (q, files_total (children_of q ch),
                 du_listable (Dir true ch) - files_total (children_of q ch)),
            lg ++ [SplittingAnalysis q])
      else (inl (q, files_total (children_of q ch), du_listable (Dir true ch)), lg)
  end.
Proof.
  destruct n as [s | [|] ch].
  - reflexivity.
  - unfold analyze_folder, try_access, bind at 1, iterdir, ret at 1.
    unfold bind at 1.
    rewrite (py_sum_eval _ _ (fun item => st_size (snd item)))
      by (intros; reflexivity).
    rewrite files_of_filter.
    unfold bind; rewrite get_total_folder_size_cases.
    destruct (over_threshold e); reflexivity.
  - reflexivity.
Qed.

(** On trees whose directories are each fully accessible or of mode 000,
    [analyze_folder] never raises on a directory, whatever mix of the two
    lies below it: its inner handler is never taken.  A mode-000 folder
    gives [(folder, 0, 0)] and one skip message; an accessible one gives its own
    files and, below the threshold, every byte reachable through listable
    directories, without a message; over the threshold the total is that
    of its subdirectories only, after the split message. *)
Theorem analyze_folder_outcome :
  forall (q : path) (n : node) (e : Q) (lg : log),
    analyze_folder q n e lg =
    match n with
    | File _ => (inr NotADirectoryError, lg)
    | Dir false _ => (inl (q, 0, 0), lg ++ [SkipInaccessibleFolder q])
    | Dir true ch =>
        if over_threshold e
        then (inl (q, files_total (children_of q ch),
                   du_listable (Dir true ch) - files_total (children_of q ch)),
              lg ++ [SplittingAnalysis q])
        else (inl (q, files_total (children_of q ch), du_listable (Dir true ch)), lg)
    end.
Proof. intros q n e lg; apply analyze_folder_cases. Qed.

(* ------------------------------------------------------------------ *)
(** ** One pass of [perform_analysis] under any timings *)

(** What the task [analyze_folder(sub)] returns and prints, by
    [analyze_folder_cases]; only directories are submitted. *)
Definition folder_outcome (x : entry) (e : Q) : (path * Z * Z) * log :=
  match snd x with
  | Dir true ch =>
      let ft := files_total (children_of (fst x) ch) in
      if over_threshold e
      then ((fst x, ft, du_listable (Dir true ch) - ft), [SplittingAnalysis (fst x)])
      else ((fst x, ft, du_listable (Dir true ch)), [])
  | _ => ((fst x, 0, 0), [SkipInaccessibleFolder (fst x)])
  end.

Lemma analyze_folder_outcome_dir (x : entry) (e : Q) (lg : log) :
  is_dir (snd x) = true ->
  analyze_folder (fst x) (snd x) e lg =
  (inl (fst (folder_outcome x e)), lg ++ snd (folder_outcome x e)).
Proof.
  intro Hd; rewrite analyze_folder_cases; unfold folder_outcome.
  destruct x as [q [s | [|] ch]]; [discriminate | | reflexivity].
  cbn [snd fst]; destruct (over_threshold e); [reflexivity | rewrite app_nil_r; reflexivity].
Qed.

Lemma folder_outcome_key (x : entry) (e : Q) : fst (fst (fst (folder_outcome x e))) = fst x.
Proof.
  destruct x as [q [s | [|] ch]]; unfold folder_outcome; cbn [snd fst];
    [reflexivity | destruct (over_threshold e) | ]; reflexivity.
Qed.

Lemma map_m_eval_log {X A} (xs : list X) (f : X -> M A) (h : X -> A) (g : X -> log) :
  (forall x lg, In x xs -> f x lg = (inl (h x), lg ++ g x)) ->
  forall lg, map_m f xs lg = (inl (map h xs), lg ++ List.concat (map g xs)).
Proof.
  intro Hf; induction xs as [| x xs IH]; intro lg; [cbn; rewrite app_nil_r; reflexivity |].
  cbn [map_m]; unfold bind at 1; rewrite (Hf x lg (or_introl eq_refl)).
  unfold bind; rewrite (IH (fun y lg' Hy => Hf y lg' (or_intror Hy)) (lg ++ g x)).
  cbn [map List.concat]; rewrite app_assoc; reflexivity.
Qed.

(** [perform_analysis] on a listable directory, names not assumed
    distinct. *)
Lemma perform_analysis_listable (d : path) (ch : list (string * node))
    (elapsed : path -> Q) (lg : log) :
  let dirs := filter (fun sub => is_dir (snd sub)) (children_of d ch) in
  let fut := map (fun x => inl (fst (folder_outcome x (elapsed (fst x))))) dirs in
  perform_analysis d (Dir true ch) elapsed lg =
  (inl (fold_left collect_step fut
          (Snapshot [] []
             (fold_left (fun info file => dict_set info (fst file) (st_size (snd file)))
                        (filter (fun file => is_file (snd file)) (children_of d ch)) []))),
   ((lg ++ [AnalyzingFolderSizes d]) ++
    List.concat (map (fun x => snd (folder_outcome x (elapsed (fst x)))) dirs)) ++
   List.concat (map collect_log fut)).
Proof.
  intros dirs fut.
  unfold perform_analysis, bind at 1, print at 1.
  unfold bind at 1, iterdir at 1, ret at 1.
  unfold bind at 1.
  rewrite (map_m_eval_log dirs
             (fun sub => submit (analyze_folder (fst sub) (snd sub) (elapsed (fst sub))))
             (fun x => inl (fst (folder_outcome x (elapsed (fst x)))))
             (fun x => snd (folder_outcome x (elapsed (fst x))))).
  2: { intros x lg0 Hin; apply filter_In in Hin as [_ Hd].
       unfold submit; rewrite (analyze_folder_outcome_dir x _ lg0 Hd); reflexivity. }
  fold fut.
  unfold bind at 1; rewrite analyze_files_eval.
  unfold bind at 1, py_for at 1, ret at 1.
  match goal with
  | |- context [py_for_from ?xs ?body ?s0 ?v0 ?lg0] =>
      destruct (py_for_from_eval xs body collect_step collect_log) with
        (s := s0) (v := v0) (lg := lg0) as [v' Hv]
  end.
  { intros s x lg0 Hin. unfold fut in Hin; apply in_map_iff in Hin as [y [<- _]].
    destruct (fst (folder_outcome y (elapsed (fst y)))) as [[sub fz] tot]; reflexivity. }
  rewrite Hv; reflexivity.
Qed.

Lemma fold_collect_fresh (rs : list (path * Z * Z)) :
  forall s,
    NoDup (map fst (folder_sizes s) ++ map (fun r => fst (fst r)) rs) ->
    NoDup (map fst (files_sizes s) ++ map (fun r => fst (fst r)) rs) ->
    fold_left collect_step (map inl rs) s =
    Snapshot (folder_sizes s ++ map (fun r => (fst (fst r), snd r)) rs)
             (files_sizes s ++ map (fun r => (fst (fst r), snd (fst r))) rs)
             (files_info s).
Proof.
  induction rs as [| [[sub fz] tot] rs IH]; intros s H1 H2; cbn [map fold_left].
  - rewrite !app_nil_r; destruct s; reflexivity.
  - cbn [fst snd] in *.
    assert (N1 : ~ In sub (map fst (folder_sizes s))).
    { intro Hin; apply NoDup_remove_2 in H1; apply H1, in_or_app; left; exact Hin. }
    assert (N2 : ~ In sub (map fst (files_sizes s))).
    { intro Hin; apply NoDup_remove_2 in H2; apply H2, in_or_app; left; exact Hin. }
    unfold collect_step at 2; rewrite (dict_set_fresh _ _ _ N1), (dict_set_fresh _ _ _ N2).
    rewrite IH; cbn [folder_sizes files_sizes files_info].
    + rewrite <- !app_assoc; reflexivity.
    + cbn [folder_sizes]; rewrite map_app, <- app_assoc; exact H1.
    + cbn [files_sizes]; rewrite map_app, <- app_assoc; exact H2.
Qed.

Lemma collect_log_inl (rs : list (path * Z * Z)) :
  List.concat (map collect_log (map inl rs)) =
  map (fun r => FolderSummary (fst (fst r)) (snd r) (snd (fst r))) rs.
Proof. induction rs as [| [[sub fz] tot] rs IH]; [reflexivity | cbn; rewrite IH; reflexivity]. Qed.

Lemma NoDup_dirs_keys (d : path) (ch : list (string * node)) (elapsed : path -> Q) :
  NoDup (map fst ch) ->
  NoDup (map (fun r => fst (fst r))
           (map (fun x => fst (folder_outcome x (elapsed (fst x))))
                (filter (fun sub => is_dir (snd sub)) (children_of d ch)))).
Proof.
  intro Hnd; rewrite map_map.
  rewrite (map_ext _ fst (fun x => folder_outcome_key x (elapsed (fst x)))).
  apply NoDup_fst_filter, NoDup_children, Hnd.
Qed.

(** The snapshot and output of [perform_analysis] on an accessible
    directory with distinct names, under the schedule of this model (the
    tasks in listing order, then the collection loop). *)
Lemma perform_analysis_outcome :
  forall (d : path) (ch : list (string * node)) (elapsed : path -> Q) (lg : log),
    NoDup (map fst ch) ->
    let dirs := filter (fun sub => is_dir (snd sub)) (children_of d ch) in
    let rs := map (fun x => fst (folder_outcome x (elapsed (fst x)))) dirs in
    perform_analysis d (Dir true ch) elapsed lg =
    (inl (Snapshot (map (fun r => (fst (fst r), snd r)) rs)
                   (map (fun r => (fst (fst r), snd (fst r))) rs)
                   (map (fun x => (fst x, st_size (snd x)))
                        (filter (fun x => is_file (snd x)) (children_of d ch)))),
     lg ++ [AnalyzingFolderSizes d] ++
     List.concat (map (fun x => snd (folder_outcome x (elapsed (fst x)))) dirs) ++
     map (fun r => FolderSummary (fst (fst r)) (snd r) (snd (fst r))) rs).
Proof.
  intros d ch elapsed lg Hnd dirs rs.
  rewrite perform_analysis_listable. fold dirs.
  rewrite <- (map_map (fun x => fst (folder_outcome x (elapsed (fst x)))) inl).
  fold rs.
  rewrite (fold_dict_set_fresh fst (fun file => st_size (snd file)))
    by (cbn [map app]; apply NoDup_fst_filter, NoDup_children, Hnd).
  rewrite fold_collect_fresh by (cbn [map folder_sizes files_sizes app];
                                 apply NoDup_dirs_keys, Hnd).
  rewrite collect_log_inl, <- !app_assoc; reflexivity.
Qed.

Lemma sum_folder_outcome_no_split (l : list entry) (elapsed : path -> Q) :
  (forall q, over_threshold (elapsed q) = false) ->
  py_sum_list (map (fun x => snd (fst (folder_outcome x (elapsed (fst x)))))
                   (filter (fun x => is_dir (snd x)) l)) =
  py_sum_list (map (fun x => du_listable (snd x)) (filter (fun x => is_dir (snd x)) l)).
Proof.
  intro Hel; f_equal; apply map_ext_in; intros x Hin.
  apply filter_In in Hin as [_ Hd].
  destruct x as [q [s | [|] ch]]; unfold folder_outcome;
    cbn [snd fst] in *; [discriminate | rewrite Hel; reflexivity | reflexivity].
Qed.

(** On trees whose directories are each fully accessible or of mode 000:
    when no walk exceeds the threshold, the pass over an accessible
    directory with distinct names succeeds whatever mix of the two lies
    below it, and the
    folder totals plus the root files add up to the bytes reachable through
    accessible directories: what sits under a mode-000 directory is
    dropped from every total. *)
Theorem perform_analysis_no_split_total :
  forall (d : path) (ch : list (string * node)) (elapsed : path -> Q) (lg : log),
    NoDup (map fst ch) ->
    (forall q, over_threshold (elapsed q) = false) ->
    exists snap lg',
      perform_analysis d (Dir true ch) elapsed lg = (inl snap, lg') /\
      py_sum_list (dict_values (folder_sizes snap)) +
      py_sum_list (dict_values (files_info snap)) = du_listable (Dir true ch).
Proof.
  intros d ch elapsed lg Hnd Hel.
  rewrite perform_analysis_listable.
  rewrite <- (map_map (fun x => fst (folder_outcome x (elapsed (fst x)))) inl).
  rewrite (fold_dict_set_fresh fst (fun file => st_size (snd file)))
    by (cbn [map app]; apply NoDup_fst_filter, NoDup_children, Hnd).
  rewrite fold_collect_fresh by (cbn [map folder_sizes files_sizes app];
                                 apply NoDup_dirs_keys, Hnd).
  eexists; eexists; split; [reflexivity |].
  cbn [folder_sizes files_info app].
  unfold dict_values; rewrite !map_map; cbn [snd].
  rewrite (sum_folder_outcome_no_split _ _ Hel).
  rewrite (files_of_filter (children_of d ch)).
  rewrite (du_listable_children d); apply sum_dirs_files_listable.
Qed.

Lemma perform_analysis_no_split_total_witness :
  NoDup ["A"%string; "D"%string] /\
  (forall q, over_threshold (no_split q) = false) /\
  exists snap lg',
    perform_analysis R (Dir true [("A"%string, Dir true [("g"%string, File 3)]);
                                  ("D"%string, Dir false [("x"%string, File 7)])])
      no_split [] = (inl snap, lg') /\
    py_sum_list (dict_values (folder_sizes snap)) +
    py_sum_list (dict_values (files_info snap)) =
    du_listable (Dir true [("A"%string, Dir true [("g"%string, File 3)]);
                           ("D"%string, Dir false [("x"%string, File 7)])]).
Proof.
  assert (Hnd : NoDup ["A"%string; "D"%string]).
  { repeat constructor; cbn; intuition discriminate. }
  split; [exact Hnd | split; [intro q; reflexivity |]].
  exact (perform_analysis_no_split_total R
           [("A"%string, Dir true [("g"%string, File 3)]);
            ("D"%string, Dir false [("x"%string, File 7)])] no_split [] Hnd
           (fun _ => eq_refl)).
Defined.

(* ------------------------------------------------------------------ *)
(** ** Looking files up in [files_info] *)

Lemma path_eqb_true (p q : path) : path_eqb p q = true -> p = q.
Proof. unfold path_eqb; destruct (list_eq_dec string_dec p q); congruence. Qed.

Lemma path_eqb_refl (p : path) : path_eqb p p = true.
Proof. unfold path_eqb; destruct (list_eq_dec string_dec p p); congruence. Qed.

Lemma dict_get_NoDup (d : list (path * Z)) (k : path) (v : Z) :
  NoDup (map fst d) -> (dict_get d k = Some v <-> In (k, v) d).
Proof.
  induction d as [| [k' v'] t IH]; intro Hnd; [split; [discriminate | intros []] |].
  inversion Hnd as [| ? ? Hk Ht]; subst.
  cbn [dict_get In]. destruct (path_eqb k k') eqn:E.
  - apply path_eqb_true in E; subst k'. split.
    + intro H; injection H as <-; left; reflexivity.
    + intros [H | H]; [injection H as <-; reflexivity |].
      exfalso; apply Hk; apply (in_map fst) in H; exact H.
  - rewrite (IH Ht). split; [intro H; right; exact H |].
    intros [H | H]; [| exact H].
    injection H as -> _; rewrite path_eqb_refl in E; discriminate.
Qed.

(** In a fully accessible directory with distinct names (entries that can
    be stat-ed), [analyze_files_in_directory] prints nothing and never raises; [files_info] maps a path to a size
    exactly when the path is [directory / name] for a file child [name] of
    that size: subdirectories are left out. *)
Theorem analyze_files_lookup :
  forall (d : path) (ch : list (string * node)) (lg : log),
    NoDup (map fst ch) ->
    exists info,
      analyze_files_in_directory d (Dir true ch) lg = (inl info, lg) /\
      forall k s, dict_get info k = Some s <->
                  exists nm, k = d ++ [nm] /\ In (nm, File s) ch.
Proof.
  intros d ch lg Hnd.
  rewrite analyze_files_eval.
  rewrite (fold_dict_set_fresh fst (fun file => st_size (snd file)))
    by (cbn [map app]; apply NoDup_fst_filter, NoDup_children, Hnd).
  eexists; split; [reflexivity |]. intros k s; cbn [app].
  rewrite dict_get_NoDup.
  2: { rewrite map_map; cbn [fst]; apply NoDup_fst_filter, NoDup_children, Hnd. }
  rewrite in_map_iff. split.
  - intros [x [Hx Hin]]; apply filter_In in Hin as [Hin Hf].
    unfold children_of in Hin; apply in_map_iff in Hin as [[nm c] [<- Hin]].
    cbn [fst snd] in *; injection Hx as <- <-.
    exists nm; split; [reflexivity |].
    destruct c as [s' | b ch']; [exact Hin | discriminate].
  - intros [nm [-> Hin]]. exists (d ++ [nm], File s); split; [reflexivity |].
    apply filter_In; split; [| reflexivity].
    unfold children_of; apply in_map_iff; exists (nm, File s); split; [reflexivity | exact Hin].
Qed.

Lemma analyze_files_lookup_witness :
  NoDup ["A"%string; "B"%string; "f"%string] /\
  exists info,
    analyze_files_in_directory R tree_R [] = (inl info, []) /\
    forall k s, dict_get info k = Some s <->
                exists nm, k = R ++ [nm] /\
                  In (nm, File s) [("A"%string, Dir true [("a.bin"%string, File 2000)]);
                                   ("B"%string, Dir true [("b1"%string, File 10);
                                                          ("b2"%string, File 10)]);
                                   ("f"%string, File 500)].
Proof.
  assert (Hnd : NoDup ["A"%string; "B"%string; "f"%string]).
  { repeat constructor; cbn; intuition discriminate. }
  split; [exact Hnd |].
  exact (analyze_files_lookup R
           [("A"%string, Dir true [("a.bin"%string, File 2000)]);
            ("B"%string, Dir true [("b1"%string, File 10); ("b2"%string, File 10)]);
            ("f"%string, File 500)] [] Hnd).
Defined.

(* ------------------------------------------------------------------ *)
(** ** What the dicts of one pass hold *)

Lemma NoDup_fst_eq {A B} (l : list (A * B)) (k : A) (a b : B) :
  NoDup (map fst l) -> In (k, a) l -> In (k, b) l -> a = b.
Proof.
  induction l as [| [k' v] l IH]; intros Hnd Ha Hb; [destruct Ha |].
  inversion Hnd as [| ? ? Hk Hl]; subst.
  destruct Ha as [Ha | Ha], Hb as [Hb | Hb].
  - congruence.
  - injection Ha as -> ->; exfalso; apply Hk; exact (in_map fst _ _ Hb).
  - injection Hb as -> ->; exfalso; apply Hk; exact (in_map fst _ _ Ha).
  - exact (IH Hl Ha Hb).
Qed.

Lemma in_dirs_entry (d : path) (ch : list (string * node)) (x : entry) :
  In x (filter (fun sub => is_dir (snd sub)) (children_of d ch)) ->
  In (fst x, snd x) (children_of d ch) /\ is_dir (snd x) = true.
Proof. destruct x as [k n]; intro H; apply filter_In in H; exact H. Qed.

(** On trees whose directories are each fully accessible or of mode 000,
    a pass over an accessible directory with distinct names never raises,
    whatever mix of the two lies below it and whatever the timings; and
    however the tasks are scheduled, [folder_sizes] and [files_sizes] map
    a path to [total_size] and [file_size] exactly when the path is a
    subdirectory for which [analyze_folder] returns [(path, file_size,
    total_size)], and [files_info] maps a path to a size exactly when it is
    a file of the directory of that size. *)
Theorem perform_analysis_dicts :
  forall (d : path) (ch : list (string * node)) (elapsed : path -> Q) (lg : log),
    NoDup (map fst ch) ->
    exists snap lg',
      perform_analysis d (Dir true ch) elapsed lg = (inl snap, lg') /\
      (forall k t fz,
         dict_get (folder_sizes snap) k = Some t /\ dict_get (files_sizes snap) k = Some fz <->
         exists n lg0, In (k, n) (children_of d ch) /\ is_dir n = true /\
                       analyze_folder k n (elapsed k) [] = (inl (k, fz, t), lg0)) /\
      (forall k s, dict_get (files_info snap) k = Some s <-> In (k, File s) (children_of d ch)).
Proof.
  intros d ch elapsed lg Hnd.
  pose proof (perform_analysis_outcome d ch elapsed lg Hnd) as Hp; cbv zeta in Hp.
  eexists; eexists; split; [exact Hp |]; cbn [folder_sizes files_sizes files_info].
  set (dirs := filter (fun sub => is_dir (snd sub)) (children_of d ch)).
  set (h := fun x : entry => fst (folder_outcome x (elapsed (fst x)))).
  assert (Hkeys : NoDup (map (fun r => fst (fst r)) (map h dirs)))
    by (apply NoDup_dirs_keys, Hnd).
  assert (Hch : NoDup (map fst (children_of d ch))) by (apply NoDup_children, Hnd).
  assert (Hkey : forall x, fst (fst (h x)) = fst x)
    by (intro x; apply folder_outcome_key).
  split.
  - intros k t fz.
    rewrite !dict_get_NoDup by (rewrite map_map; exact Hkeys).
    rewrite !in_map_iff. split.
    + intros [[r1 [E1 H1]] [r2 [E2 H2]]].
      apply in_map_iff in H1 as [x1 [<- H1]]; apply in_map_iff in H2 as [x2 [<- H2]].
      rewrite Hkey in E1, E2.
      injection E1 as Ek1 Et; injection E2 as Ek2 Ef.
      destruct (in_dirs_entry d ch x1 H1) as [Hc1 Hd1].
      destruct (in_dirs_entry d ch x2 H2) as [Hc2 Hd2].
      rewrite Ek1 in Hc1; rewrite Ek2 in Hc2.
      pose proof (NoDup_fst_eq _ _ _ _ Hch Hc1 Hc2) as En.
      exists (snd x1); eexists; split; [exact Hc1 | split; [exact Hd1 |]].
      rewrite <- Ek1; rewrite (analyze_folder_outcome_dir x1 _ [] Hd1).
      f_equal; f_equal.
      assert (Ex : x1 = x2) by (destruct x1, x2; cbn in *; congruence).
      subst x2.
      change (fst (folder_outcome x1 (elapsed (fst x1)))) with (h x1).
      pose proof (Hkey x1) as Hk1.
      destruct (h x1) as [[k1 fz1] t1]; cbn [fst snd] in *; congruence.
    + intros [n [lg0 [Hc [Hd Ha]]]].
      assert (Hx : In (k, n) dirs) by (apply filter_In; split; assumption).
      rewrite (analyze_folder_outcome_dir (k, n) _ [] Hd) in Ha.
      injection Ha as Ha _.
      cbn [fst] in Ha.
      split; exists (h (k, n)); (split; [| apply in_map; exact Hx]);
        unfold h; cbn [fst]; rewrite Ha; reflexivity.
  - intros k s.
    rewrite dict_get_NoDup.
    2: { rewrite map_map; cbn [fst]; apply NoDup_fst_filter, Hch. }
    rewrite in_map_iff. split.
    + intros [x [Hx Hin]]; apply filter_In in Hin as [Hin Hf].
      destruct x as [k' [s' | b ch']]; [| discriminate].
      cbn [fst snd st_size] in Hx; injection Hx as -> ->; exact Hin.
    + intro Hin; exists (k, File s); split; [reflexivity |].
      apply filter_In; split; [exact Hin | reflexivity].
Qed.

Lemma perform_analysis_dicts_witness :
  NoDup ["A"%string; "B"%string; "f"%string] /\
  exists snap lg',
    perform_analysis R tree_R always_split [] = (inl snap, lg') /\
    (forall k t fz,
       dict_get (folder_sizes snap) k = Some t /\ dict_get (files_sizes snap) k = Some fz <->
       exists n lg0, In (k, n) (children_of R
                                  [("A"%string, Dir true [("a.bin"%string, File 2000)]);
                                   ("B"%string, Dir true [("b1"%string, File 10);
                                                          ("b2"%string, File 10)]);
                                   ("f"%string, File 500)]) /\ is_dir n = true /\
                     analyze_folder k n (always_split k) [] = (inl (k, fz, t), lg0)) /\
    (forall k s, dict_get (files_info snap) k = Some s <->
                 In (k, File s) (children_of R
                                   [("A"%string, Dir true [("a.bin"%string, File 2000)]);
                                    ("B"%string, Dir true [("b1"%string, File 10);
                                                           ("b2"%string, File 10)]);
                                    ("f"%string, File 500)])).
Proof.
  assert (Hnd : NoDup ["A"%string; "B"%string; "f"%string]).
  { repeat constructor; cbn; intuition discriminate. }
  split; [exact Hnd |].
  exact (perform_analysis_dicts R
           [("A"%string, Dir true [("a.bin"%string, File 2000)]);
            ("B"%string, Dir true [("b1"%string, File 10); ("b2"%string, File 10)]);
            ("f"%string, File 500)] always_split [] Hnd).
Defined.

(* ------------------------------------------------------------------ *)
(** ** What [analyze_and_plot] can raise *)

Lemma resolve_error (n : node) (p : path) (e : exn) :
  resolve n p = inr e -> e = PermissionError.
Proof.
  revert n; induction p as [| nm p IH]; intros n H; [discriminate |].
  destruct n as [s | [|] ch]; cbn [resolve] in H; [discriminate | | congruence].
  destruct (find _ ch) as [c |]; [exact (IH _ H) | discriminate].
Qed.

(** On trees whose directories are each fully accessible or of mode 000,
    the analysis [analyze_and_plot] runs before calling
    [plot_folder_sizes] raises only [PermissionError], and only when the
    existence check itself is denied (nothing printed) or when the target
    is a mode-000 directory (after the header): an accessible target is
    analysed without any exception.  What [plot_folder_sizes] raises is not
    modelled. *)
Theorem analyze_and_plot_raises :
  forall (fs : node) (target : path) (elapsed : path -> Q) (lg lg' : log) (e : exn),
    analyze_and_plot fs target elapsed lg = (inr e, lg') <->
    e = PermissionError /\
    ((resolve fs target = inr PermissionError /\ lg' = lg) \/
     (exists ch, resolve fs target = inl (Some (Dir false ch)) /\
                 lg' = lg ++ [AnalyzingFolderSizes target])).
Proof.
  intros fs target elapsed lg lg' e; unfold analyze_and_plot.
  destruct (resolve fs target) as [[[s | [|] ch] |] | e0] eqn:Hr.
  - split; [cbn; discriminate |].
    intros [_ [[H _] | [ch [H _]]]]; discriminate.
  - cbn [is_dir]; unfold bind at 1; rewrite perform_analysis_listable.
    split; [discriminate |].
    intros [_ [[H _] | [ch' [H _]]]]; discriminate.
  - cbn [is_dir]; unfold bind at 1.
    change (perform_analysis target (Dir false ch) elapsed lg)
      with (@inr snapshot exn PermissionError, lg ++ [AnalyzingFolderSizes target]).
    split.
    + intro H; injection H as <- <-; split; [reflexivity |].
      right; exists ch; split; reflexivity.
    + intros [-> [[H _] | [ch' [H ->]]]]; [discriminate | reflexivity].
  - split; [cbn; discriminate |].
    intros [_ [[H _] | [ch [H _]]]]; discriminate.
  - pose proof (resolve_error _ _ _ Hr) as ->.
    split.
    + intro H; injection H as <- <-; split; [reflexivity | left; split; reflexivity].
    + intros [-> [[_ ->] | [ch [H _]]]]; [reflexivity | discriminate].
Qed.

(* ------------------------------------------------------------------ *)
(** ** Signs of the reported sizes *)

(** Every file size below [n] is non-negative, as [st_size] is. *)
Fixpoint sizes_nonneg (n : node) : bool :=
  match n with
  | File s => Z.leb 0 s
  | Dir _ ch =>
      (fix go (l : list (string * node)) : bool :=
         match l with [] => true | (_, c) :: t => sizes_nonneg c && go t end) ch
  end.

Lemma sizes_nonneg_dir (b : bool) (ch : list (string * node)) :
  sizes_nonneg (Dir b ch) = forallb (fun c => sizes_nonneg (snd c)) ch.
Proof. induction ch as [| [nm c] t IH]; [reflexivity | cbn in *; rewrite IH; reflexivity]. Qed.

Lemma py_sum_list_nonneg {X} (f : X -> Z) (l : list X) :
  (forall x, In x l -> 0 <= f x) -> 0 <= py_sum_list (map f l).
Proof.
  unfold py_sum_list; induction l as [| x l IH]; intro H; cbn; [lia |].
  pose proof (H x (or_introl eq_refl)).
  pose proof (IH (fun y Hy => H y (or_intror Hy))); lia.
Qed.

Lemma du_listable_nonneg (n : node) : sizes_nonneg n = true -> 0 <= du_listable n.
Proof.
  induction n as [s | b ch IH] using node_ind'; intro H.
  - cbn in *; apply Z.leb_le in H; exact H.
  - rewrite sizes_nonneg_dir in H. destruct b; [| cbn; lia].
    rewrite du_listable_dir; apply py_sum_list_nonneg; intros c Hc.
    rewrite Forall_forall in IH; apply IH; [exact Hc |].
    exact (proj1 (forallb_forall _ ch) H c Hc).
Qed.

Lemma files_total_bounds (q : path) (ch : list (string * node)) :
  sizes_nonneg (Dir true ch) = true ->
  0 <= files_total (children_of q ch) <= du_listable (Dir true ch).
Proof.
  intro H; rewrite sizes_nonneg_dir in H.
  assert (Hc : forall x, In x (children_of q ch) -> sizes_nonneg (snd x) = true).
  { intros x Hin; destruct (in_children q ch x Hin) as [nm [_ Hin']].
    exact (proj1 (forallb_forall _ ch) H _ Hin'). }
  pose proof (sum_dirs_files_listable (children_of q ch)) as Hs.
  rewrite <- (du_listable_children q) in Hs.
  assert (0 <= py_sum_list (map (fun x => du_listable (snd x))
                                (filter (fun x => is_dir (snd x)) (children_of q ch)))).
  { apply py_sum_list_nonneg; intros x Hin; apply filter_In in Hin as [Hin _].
    apply du_listable_nonneg, Hc, Hin. }
  assert (0 <= files_total (children_of q ch)).
  { unfold files_total; apply py_sum_list_nonneg; intros x Hin.
    destruct x as [p [s | b ch']]; cbn [snd is_file st_size]; [| lia].
    specialize (Hc _ Hin); cbn in Hc; apply Z.leb_le in Hc; exact Hc. }
  lia.
Qed.

(** With non-negative file sizes, [analyze_folder] on a directory returns
    non-negative sizes, and below the threshold the folder's own files
    never exceed its total. *)
Theorem analyze_folder_nonneg :
  forall (q : path) (n : node) (e : Q) (lg : log),
    sizes_nonneg n = true -> is_dir n = true ->
    exists fz t lg',
      analyze_folder q n e lg = (inl (q, fz, t), lg') /\
      0 <= fz /\ 0 <= t /\ (over_threshold e = false -> fz <= t).
Proof.
  intros q n e lg Hn Hd; rewrite analyze_folder_cases.
  destruct n as [s | [|] ch]; [discriminate | | ].
  - pose proof (files_total_bounds q ch Hn).
    destruct (over_threshold e); do 3 eexists; (split; [reflexivity |]); lia.
  - do 3 eexists; split; [reflexivity | lia].
Qed.

Lemma analyze_folder_nonneg_witness :
  sizes_nonneg (Dir true [("g"%string, File 3); ("D"%string, Dir false [])]) = true /\
  is_dir (Dir true [("g"%string, File 3); ("D"%string, Dir false [])]) = true /\
  exists fz t lg',
    analyze_folder R_A (Dir true [("g"%string, File 3); ("D"%string, Dir false [])]) 5 [] =
      (inl (R_A, fz, t), lg') /\
    0 <= fz /\ 0 <= t /\ (over_threshold 5 = false -> fz <= t).
Proof.
  split; [reflexivity | split; [reflexivity |]].
  exact (analyze_folder_nonneg R_A (Dir true [("g"%string, File 3); ("D"%string, Dir false [])])
           5 [] eq_refl eq_refl).
Defined.

(* ------------------------------------------------------------------ *)
(** ** The tooltip of [plot_folder_sizes] *)

(** [total_dir_size] (line 132). *)
Definition total_dir_size (snap : snapshot) : Z :=
  py_sum_list (dict_values (folder_sizes snap)) +
  py_sum_list (dict_values (files_info snap)).

(** The label [update_tooltip] sets: a folder bar shows the folder's name,
    a file bar its name, size and [percentage] (the float
    [(size / total_dir_size) * 100], kept exact here). *)
Inductive tooltip :=
| FolderLabel (sub : path)
| FileLabel (file : path) (size : Z) (percentage : Q).

(** What one call of [update_tooltip] does: show a label, hide the
    annotation, or raise [ZeroDivisionError] out of [size /
    total_dir_size]. *)
Inductive tooltip_outcome :=
| ShowTip (t : tooltip)
| HideTip
| ZeroDivisionError.

(** [update_tooltip] (lines 152-173).  The bars are [bars_total +
    bars_files], the folder bars first; [hit] is the index of the first
    bar containing the mouse, [None] when no bar does. *)
Definition update_tooltip (snap : snapshot) (hit : option nat) : tooltip_outcome :=
  let subfolders := map fst (folder_sizes snap) in
  let file_names := map fst (files_info snap) in
  let file_values := dict_values (files_info snap) in
  match hit with
  | None => HideTip
  | Some i =>
      if Nat.ltb i (List.length subfolders) then
        match nth_error subfolders i with
        | Some sf => ShowTip (FolderLabel sf)
        | None => HideTip
        end
      else
        match nth_error file_names (i - List.length subfolders),
              nth_error file_values (i - List.length subfolders) with
        | Some f, Some size =>
            if Z.eqb (total_dir_size snap) 0 then ZeroDivisionError
            else ShowTip (FileLabel f size
                            (inject_Z size / inject_Z (total_dir_size snap) * 100))
        | _, _ => HideTip
        end
  end.

Lemma in_le_sum (l : list Z) (v : Z) :
  forallb (Z.leb 0) l = true -> In v l -> v <= py_sum_list l.
Proof.
  unfold py_sum_list; induction l as [| x l IH]; intros Hl Hin; [destruct Hin |].
  cbn [forallb] in Hl; apply andb_true_iff in Hl as [Hx Hl]; apply Z.leb_le in Hx.
  cbn [fold_right]; destruct Hin as [<- | Hin].
  - pose proof (py_sum_list_nonneg (fun z => z) l) as H0; rewrite map_id in H0.
    assert (0 <= py_sum_list l); [| unfold py_sum_list in *; lia].
    apply H0; intros y Hy; exact (proj1 (Z.leb_le _ _) (proj1 (forallb_forall _ l) Hl y Hy)).
  - specialize (IH Hl Hin); lia.
Qed.

Lemma sum_nonneg_forallb (l : list Z) :
  forallb (Z.leb 0) l = true -> 0 <= py_sum_list l.
Proof.
  intro Hl; pose proof (py_sum_list_nonneg (fun z => z) l) as H0; rewrite map_id in H0.
  apply H0; intros y Hy; exact (proj1 (Z.leb_le _ _) (proj1 (forallb_forall _ l) Hl y Hy)).
Qed.

(** With non-negative sizes in the dicts, hovering the bar of a file
    raises [ZeroDivisionError] exactly when [total_dir_size] is 0 (the file
    is then empty too); otherwise the tooltip shows the file's name and
    size with a percentage between 0 and 100. *)
Theorem update_tooltip_file :
  forall (snap : snapshot) (i : nat) (f : path) (s : Z),
    forallb (Z.leb 0) (dict_values (folder_sizes snap)) = true ->
    forallb (Z.leb 0) (dict_values (files_info snap)) = true ->
    nth_error (files_info snap) i = Some (f, s) ->
    (total_dir_size snap = 0 ->
     update_tooltip snap (Some (List.length (folder_sizes snap) + i)%nat) = ZeroDivisionError /\
     s = 0) /\
    (total_dir_size snap <> 0 ->
     exists p, update_tooltip snap (Some (List.length (folder_sizes snap) + i)%nat) =
               ShowTip (FileLabel f s p) /\ (0 <= p <= 100)%Q).
Proof.
  intros snap i f s Hfs Hfi Hi.
  assert (Hs : In s (dict_values (files_info snap))).
  { unfold dict_values; exact (in_map snd _ _ (nth_error_In _ _ Hi)). }
  pose proof (in_le_sum _ _ Hfi Hs) as Hle.
  pose proof (sum_nonneg_forallb _ Hfs) as H0.
  pose proof (sum_nonneg_forallb _ Hfi) as H1.
  assert (Hs0 : 0 <= s) by exact (proj1 (Z.leb_le _ _) (proj1 (forallb_forall _ _) Hfi s Hs)).
  assert (Hu : update_tooltip snap (Some (List.length (folder_sizes snap) + i)%nat) =
               if Z.eqb (total_dir_size snap) 0 then ZeroDivisionError
               else ShowTip (FileLabel f s
                               (inject_Z s / inject_Z (total_dir_size snap) * 100))).
  { unfold update_tooltip; rewrite length_map.
    replace (Nat.ltb (List.length (folder_sizes snap) + i) (List.length (folder_sizes snap)))
      with false by (symmetry; apply Nat.ltb_ge; lia).
    replace (List.length (folder_sizes snap) + i - List.length (folder_sizes snap))%nat
      with i by lia.
    unfold dict_values; rewrite !nth_error_map, Hi; reflexivity. }
  unfold total_dir_size in *; split.
  - intro HT; rewrite Hu, HT; split; [reflexivity | lia].
  - intro HT; rewrite Hu; apply Z.eqb_neq in HT as HT'; rewrite HT'.
    eexists; split; [reflexivity |].
    set (T := py_sum_list (dict_values (folder_sizes snap)) +
              py_sum_list (dict_values (files_info snap))) in *.
    assert (HTq : (0 < inject_Z T)%Q) by (change 0%Q with (inject_Z 0); rewrite <- Zlt_Qlt; lia).
    assert (Hq0 : (0 <= inject_Z s / inject_Z T)%Q).
    { apply Qle_shift_div_l; [exact HTq |].
      rewrite Qmult_0_l; change 0%Q with (inject_Z 0); rewrite <- Zle_Qle; lia. }
    assert (Hq1 : (inject_Z s / inject_Z T <= 1)%Q).
    { apply Qle_shift_div_r; [exact HTq |].
      rewrite Qmult_1_l, <- Zle_Qle; lia. }
    split.
    + apply Qmult_le_0_compat; [exact Hq0 | discriminate].
    + apply Qle_trans with (1 * 100)%Q.
      * apply Qmult_le_compat_r; [exact Hq1 | discriminate].
      * discriminate.
Qed.

Lemma update_tooltip_file_witness :
  forallb (Z.leb 0) (dict_values [(R_A, 0); (R_B, 0)]) = true /\
  forallb (Z.leb 0) (dict_values [(R_f, 0); (R_f ++ ["g"%string], 500)]) = true /\
  nth_error [(R_f, 0); (R_f ++ ["g"%string], 500)] 1 = Some (R_f ++ ["g"%string], 500) /\
  let snap := Snapshot [(R_A, 0); (R_B, 0)] [(R_A, 0); (R_B, 0)]
                       [(R_f, 0); (R_f ++ ["g"%string], 500)] in
  (total_dir_size snap = 0 ->
   update_tooltip snap (Some (List.length (folder_sizes snap) + 1)%nat) = ZeroDivisionError /\
   500 = 0) /\
  (total_dir_size snap <> 0 ->
   exists p, update_tooltip snap (Some (List.length (folder_sizes snap) + 1)%nat) =
             ShowTip (FileLabel (R_f ++ ["g"%string]) 500 p) /\ (0 <= p <= 100)%Q).
Proof.
  split; [reflexivity | split; [reflexivity | split; [reflexivity |]]].
  exact (update_tooltip_file
           (Snapshot [(R_A, 0); (R_B, 0)] [(R_A, 0); (R_B, 0)]
                     [(R_f, 0); (R_f ++ ["g"%string], 500)])
           1 (R_f ++ ["g"%string]) 500 eq_refl eq_refl eq_refl).
Defined.
